(** * Agent-skills recommendation engine of workspace-init-mcp

    A shallow embedding of the registry module (the two static catalogs
    [AGENT_REGISTRY] and [SKILL_REGISTRY], [recommendAgentSkills],
    [searchAgentSkills] and [listCategories]) together with the properties
    its specification states about scoring, ranking, search and the
    category index.

    Modelling conventions.
    - A JavaScript string is a [string]: the sequence of its UTF-8 bytes.
      Every string of the catalogs is ASCII apart from one dash in a
      description.  [toLowerCase] maps the letters A..Z and leaves every
      other byte alone, which is what String.prototype.toLowerCase does on
      ASCII text; [includes] is the substring test of
      String.prototype.includes.
    - A JavaScript number that the code uses as an integer (a score, a
      priority, a cap) is a [Z]; [slice] turns any other cap into an
      integer before it uses it.
    - An entry is the record of its fields; the identifiers are unique
      within a catalog, so two entries of a catalog are equal only if they
      are the same object.
    - An array is a [list]; [Array_sort] is the stable sort that
      Array.prototype.sort is required to be, [slice0] is [slice(0, n)].
    - A [Set] is the list of its elements in insertion order. *)

From Stdlib Require Import List String Ascii ZArith NArith Bool Lia.
From Stdlib Require Import DecimalString.
From Stdlib Require Import Sorting.Sorted Sorting.Permutation.
Import ListNotations.

Open Scope string_scope.
Open Scope list_scope.
Open Scope Z_scope.

(** ** Strings *)

Module JsString.

(** [c.toLowerCase()] for one ASCII character. *)
Definition lowerAscii (c : ascii) : ascii :=
  let n := N_of_ascii c in
  if ((65 <=? n) && (n <=? 90))%N then ascii_of_N (n + 32) else c.

(** [s.toLowerCase()]. *)
Fixpoint toLowerCase (s : string) : string :=
  match s with
  | EmptyString => EmptyString
  | String c s' => String (lowerAscii c) (toLowerCase s')
  end.

(** [s.includes(q)]: [q] occurs in [s] at some position. *)
Fixpoint includes (s q : string) : bool :=
  String.prefix q s ||
  match s with
  | EmptyString => false
  | String _ s' => includes s' q
  end.

(** [q] is a substring of [s]. *)
Definition Substring (q s : string) : Prop :=
  exists p r : string, s = (p ++ q ++ r)%string.

(** White space and line terminators, as far as they are one byte long. *)
Definition isWhiteSpace (c : ascii) : bool :=
  let n := N_of_ascii c in
  ((9 <=? n) && (n <=? 13) || (n =? 32))%N.

Fixpoint trimStart (s : string) : string :=
  match s with
  | EmptyString => EmptyString
  | String c s' => if isWhiteSpace c then trimStart s' else s
  end.

Fixpoint trimEnd (s : string) : string :=
  match s with
  | EmptyString => EmptyString
  | String c s' =>
      match trimEnd s' with
      | EmptyString => if isWhiteSpace c then EmptyString else String c EmptyString
      | r => String c r
      end
  end.

(** [s.trim()]. *)
Definition trim (s : string) : string := trimEnd (trimStart s).

(** The line feed of a template literal. *)
Definition nl : string := String (ascii_of_N 10) EmptyString.

(** The double quote of a template literal. *)
Definition dq : string := String (ascii_of_N 34) EmptyString.

(** [s || d]: the empty string is falsy. *)
Definition orElse (s d : string) : string :=
  match s with
  | EmptyString => d
  | _ => s
  end.

(** A length interpolated in a template literal. *)
Definition showLength {A : Type} (arr : list A) : string :=
  NilZero.string_of_uint (Nat.to_uint (List.length arr)).

(** The order of the default comparator of Array.prototype.sort on strings:
    code unit by code unit. *)
Definition stringLt (a b : string) : Prop := String.compare a b = Lt.

End JsString.
Import JsString.

(** ** Catalog entries *)

Module Agent.
Record Entry : Type := {
  id : string;                        (* file name without .agent.md *)
  name : string;
  description : string;
  categories : list string;           (* AgentCategory[] *)
  tags : list string;
  relevantProjectTypes : list string;
  techKeywords : list string;
  priority : Z                        (* 1=core, 2=recommended, 3=specialized *)
}.
End Agent.

Module Skill.
Record Entry : Type := {
  id : string;                        (* directory name *)
  name : string;
  description : string;
  categories : list string;           (* SkillCategory[] *)
  tags : list string;
  relevantProjectTypes : list string;
  techKeywords : list string;
  hasResources : bool;
  priority : Z                        (* 1=core, 2=recommended, 3=specialized *)
}.
End Skill.

Definition AgentEntry : Type := Agent.Entry.
Definition SkillEntry : Type := Skill.Entry.

(** The string literals of the union type [AgentCategory]. *)
Definition AgentCategory : list string :=
  ["planning"; "architecture"; "engineering"; "debugging"; "testing";
   "devops"; "documentation"; "review"; "security"; "data"; "frontend";
   "backend"; "mobile"; "cloud"; "creative"; "meta"; "platform"].

(** The string literals of the union type [SkillCategory]. *)
Definition SkillCategory : list string :=
  ["blueprint"; "document-gen"; "code-gen"; "testing"; "devops";
   "migration"; "refactor"; "git"; "mcp"; "platform"; "analysis"; "prompt";
   "project-setup"; "infrastructure"].

(** The fields the engine reads are the same in both interfaces; the code
    repeats each of its passes once per catalog, with [agent.] replaced by
    [skill.]. The class lets one definition stand for both copies. *)
Class CatalogEntry (E : Type) : Type := {
  entryId : E -> string;
  entryName : E -> string;
  entryDescription : E -> string;
  entryCategories : E -> list string;
  entryTags : E -> list string;
  entryRelevantProjectTypes : E -> list string;
  entryTechKeywords : E -> list string;
  entryPriority : E -> Z
}.

#[global] Instance AgentCatalogEntry : CatalogEntry AgentEntry := {
  entryId := Agent.id;
  entryName := Agent.name;
  entryDescription := Agent.description;
  entryCategories := Agent.categories;
  entryTags := Agent.tags;
  entryRelevantProjectTypes := Agent.relevantProjectTypes;
  entryTechKeywords := Agent.techKeywords;
  entryPriority := Agent.priority
}.

#[global] Instance SkillCatalogEntry : CatalogEntry SkillEntry := {
  entryId := Skill.id;
  entryName := Skill.name;
  entryDescription := Skill.description;
  entryCategories := Skill.categories;
  entryTags := Skill.tags;
  entryRelevantProjectTypes := Skill.relevantProjectTypes;
  entryTechKeywords := Skill.techKeywords;
  entryPriority := Skill.priority
}.

(** ** Agent registry *)

Definition AGENT_REGISTRY : list AgentEntry :=
  [
    (* -- Planning & Architecture -- *)
    {| Agent.id := "plan";
       Agent.name := "Plan Mode";
       Agent.description := "Strategic planning and architecture assistant focused on thoughtful analysis before implementation";
       Agent.categories := ["planning"];
       Agent.tags := ["planning"; "strategy"; "analysis"; "think-first"];
       Agent.relevantProjectTypes := ["*"];
       Agent.techKeywords := [];
       Agent.priority := 1 |};
    {| Agent.id := "planner";
       Agent.name := "Planner";
       Agent.description := "Task planning and breakdown assistant";
       Agent.categories := ["planning"];
       Agent.tags := ["planning"; "task-breakdown"; "workflow"];
       Agent.relevantProjectTypes := ["*"];
       Agent.techKeywords := [];
       Agent.priority := 1 |};
    {| Agent.id := "task-planner";
       Agent.name := "Task Planner";
       Agent.description := "Detailed task planning with dependency tracking";
       Agent.categories := ["planning"];
       Agent.tags := ["planning"; "tasks"; "dependencies"];
       Agent.relevantProjectTypes := ["*"];
       Agent.techKeywords := [];
       Agent.priority := 2 |};
    {| Agent.id := "context-architect";
       Agent.name := "Context Architect";
       Agent.description := "Plans and executes multi-file changes by identifying relevant context and dependencies";
       Agent.categories := ["architecture"; "planning"];
       Agent.tags := ["architecture"; "context-map"; "dependencies"; "multi-file"];
       Agent.relevantProjectTypes := ["*"];
       Agent.techKeywords := [];
       Agent.priority := 1 |};
    {| Agent.id := "repo-architect";
       Agent.name := "Repo Architect";
       Agent.description := "Bootstraps and validates agentic project structures for GitHub Copilot workflows";
       Agent.categories := ["architecture"; "meta"];
       Agent.tags := ["scaffolding"; "repo-structure"; "agents"; "skills"];
       Agent.relevantProjectTypes := ["*"];
       Agent.techKeywords := [];
       Agent.priority := 1 |};
    {| Agent.id := "arch";
       Agent.name := "Architecture";
       Agent.description := "Software architecture design and review";
       Agent.categories := ["architecture"];
       Agent.tags := ["architecture"; "design-patterns"; "system-design"];
       Agent.relevantProjectTypes := ["web-app"; "api"; "library"; "monorepo"];
       Agent.techKeywords := [];
       Agent.priority := 1 |};
    {| Agent.id := "blueprint-mode";
       Agent.name := "Blueprint Mode";
       Agent.description := "Comprehensive project blueprint generation";
       Agent.categories := ["architecture"; "planning"];
       Agent.tags := ["blueprint"; "architecture"; "comprehensive"];
       Agent.relevantProjectTypes := ["*"];
       Agent.techKeywords := [];
       Agent.priority := 2 |};
    {| Agent.id := "implementation-plan";
       Agent.name := "Implementation Plan";
       Agent.description := "Detailed implementation planning for features and changes";
       Agent.categories := ["planning"];
       Agent.tags := ["implementation"; "planning"; "features"];
       Agent.relevantProjectTypes := ["*"];
       Agent.techKeywords := [];
       Agent.priority := 2 |};
    (* -- Engineering -- *)
    {| Agent.id := "principal-software-engineer";
       Agent.name := "Principal Software Engineer";
       Agent.description := "Principal-level engineering guidance with focus on engineering excellence and pragmatic implementation";
       Agent.categories := ["engineering"; "review"];
       Agent.tags := ["best-practices"; "clean-code"; "solid"; "design-patterns"; "tech-debt"];
       Agent.relevantProjectTypes := ["*"];
       Agent.techKeywords := [];
       Agent.priority := 1 |};
    {| Agent.id := "software-engineer-agent-v1";
       Agent.name := "Software Engineer Agent";
       Agent.description := "General-purpose software engineering assistant";
       Agent.categories := ["engineering"];
       Agent.tags := ["coding"; "implementation"; "general"];
       Agent.relevantProjectTypes := ["*"];
       Agent.techKeywords := [];
       Agent.priority := 2 |};
    {| Agent.id := "expert-nextjs-developer";
       Agent.name := "Expert Next.js Developer";
       Agent.description := "Specialized Next.js development assistance";
       Agent.categories := ["engineering"; "frontend"];
       Agent.tags := ["nextjs"; "react"; "ssr"; "fullstack"];
       Agent.relevantProjectTypes := ["web-app"];
       Agent.techKeywords := ["Next.js"; "React"; "TypeScript"];
       Agent.priority := 2 |};
    {| Agent.id := "expert-react-frontend-engineer";
       Agent.name := "Expert React Frontend Engineer";
       Agent.description := "Expert React frontend development";
       Agent.categories := ["engineering"; "frontend"];
       Agent.tags := ["react"; "frontend"; "components"; "state-management"];
       Agent.relevantProjectTypes := ["web-app"];
       Agent.techKeywords := ["React"; "TypeScript"; "JavaScript"];
       Agent.priority := 2 |};
    {| Agent.id := "expert-cpp-software-engineer";
       Agent.name := "Expert C++ Software Engineer";
       Agent.description := "C++ development expertise";
       Agent.categories := ["engineering"];
       Agent.tags := ["cpp"; "systems"; "performance"];
       Agent.relevantProjectTypes := ["library"];
       Agent.techKeywords := ["C++"];
       Agent.priority := 3 |};
    {| Agent.id := "expert-dotnet-software-engineer";
       Agent.name := "Expert .NET Software Engineer";
       Agent.description := ".NET development expertise";
       Agent.categories := ["engineering"];
       Agent.tags := ["dotnet"; "csharp"; "aspnet"];
       Agent.relevantProjectTypes := ["web-app"; "api"];
       Agent.techKeywords := [".NET"; "C#"; "ASP.NET"];
       Agent.priority := 2 |};
    {| Agent.id := "api-architect";
       Agent.name := "API Architect";
       Agent.description := "API design and architecture specialist";
       Agent.categories := ["architecture"; "backend"];
       Agent.tags := ["api"; "rest"; "graphql"; "openapi"];
       Agent.relevantProjectTypes := ["api"];
       Agent.techKeywords := [];
       Agent.priority := 1 |};
    (* -- Debugging -- *)
    {| Agent.id := "debug";
       Agent.name := "Debug Mode";
       Agent.description := "Systematic debugging with 4-phase approach: assess, investigate, resolve, QA";
       Agent.categories := ["debugging"];
       Agent.tags := ["debugging"; "troubleshooting"; "root-cause"];
       Agent.relevantProjectTypes := ["*"];
       Agent.techKeywords := [];
       Agent.priority := 1 |};
    (* -- Testing -- *)
    {| Agent.id := "playwright-tester";
       Agent.name := "Playwright Tester";
       Agent.description := "E2E testing with Playwright";
       Agent.categories := ["testing"];
       Agent.tags := ["e2e"; "playwright"; "browser-testing"];
       Agent.relevantProjectTypes := ["web-app"];
       Agent.techKeywords := ["Playwright"; "TypeScript"];
       Agent.priority := 2 |};
    {| Agent.id := "polyglot-test-builder";
       Agent.name := "Polyglot Test Builder";
       Agent.description := "Multi-language test generation and management";
       Agent.categories := ["testing"];
       Agent.tags := ["testing"; "polyglot"; "multi-language"];
       Agent.relevantProjectTypes := ["*"];
       Agent.techKeywords := [];
       Agent.priority := 2 |};
    {| Agent.id := "tdd-red";
       Agent.name := "TDD Red Phase";
       Agent.description := "Write failing tests first (Red phase of TDD)";
       Agent.categories := ["testing"];
       Agent.tags := ["tdd"; "red"; "test-first"];
       Agent.relevantProjectTypes := ["*"];
       Agent.techKeywords := [];
       Agent.priority := 2 |};
    {| Agent.id := "tdd-green";
       Agent.name := "TDD Green Phase";
       Agent.description := "Make tests pass with minimal code (Green phase of TDD)";
       Agent.categories := ["testing"];
       Agent.tags := ["tdd"; "green"; "implementation"];
       Agent.relevantProjectTypes := ["*"];
       Agent.techKeywords := [];
       Agent.priority := 2 |};
    {| Agent.id := "tdd-refactor";
       Agent.name := "TDD Refactor Phase";
       Agent.description := "Refactor code while keeping tests green";
       Agent.categories := ["testing"];
       Agent.tags := ["tdd"; "refactor"; "clean-code"];
       Agent.relevantProjectTypes := ["*"];
       Agent.techKeywords := [];
       Agent.priority := 2 |};
    (* -- DevOps -- *)
    {| Agent.id := "devops-expert";
       Agent.name := "DevOps Expert";
       Agent.description := "DevOps specialist following the infinity loop principle with focus on automation";
       Agent.categories := ["devops"];
       Agent.tags := ["devops"; "cicd"; "automation"; "monitoring"; "dora"];
       Agent.relevantProjectTypes := ["devops"; "api"; "web-app"];
       Agent.techKeywords := ["Docker"; "Kubernetes"; "Terraform"];
       Agent.priority := 1 |};
    {| Agent.id := "platform-sre-kubernetes";
       Agent.name := "Platform SRE Kubernetes";
       Agent.description := "Kubernetes platform engineering and SRE";
       Agent.categories := ["devops"; "cloud"];
       Agent.tags := ["kubernetes"; "sre"; "platform"; "reliability"];
       Agent.relevantProjectTypes := ["devops"];
       Agent.techKeywords := ["Kubernetes"; "Docker"];
       Agent.priority := 2 |};
    {| Agent.id := "github-actions-expert";
       Agent.name := "GitHub Actions Expert";
       Agent.description := "GitHub Actions CI/CD pipeline specialist";
       Agent.categories := ["devops"];
       Agent.tags := ["github-actions"; "cicd"; "workflows"];
       Agent.relevantProjectTypes := ["*"];
       Agent.techKeywords := ["GitHub Actions"];
       Agent.priority := 2 |};
    {| Agent.id := "terraform";
       Agent.name := "Terraform";
       Agent.description := "Terraform infrastructure as code specialist";
       Agent.categories := ["devops"; "cloud"];
       Agent.tags := ["terraform"; "iac"; "infrastructure"];
       Agent.relevantProjectTypes := ["devops"];
       Agent.techKeywords := ["Terraform"; "HCL"];
       Agent.priority := 2 |};
    (* -- Documentation -- *)
    {| Agent.id := "se-technical-writer";
       Agent.name := "Technical Writer";
       Agent.description := "Technical documentation writing specialist";
       Agent.categories := ["documentation"];
       Agent.tags := ["documentation"; "technical-writing"; "api-docs"];
       Agent.relevantProjectTypes := ["*"];
       Agent.techKeywords := [];
       Agent.priority := 1 |};
    {| Agent.id := "gem-documentation-writer";
       Agent.name := "Documentation Writer";
       Agent.description := "Documentation generation and management";
       Agent.categories := ["documentation"];
       Agent.tags := ["documentation"; "writing"; "markdown"];
       Agent.relevantProjectTypes := ["*"];
       Agent.techKeywords := [];
       Agent.priority := 2 |};
    (* -- Review & Quality -- *)
    {| Agent.id := "gem-reviewer";
       Agent.name := "Code Reviewer";
       Agent.description := "Code review assistant";
       Agent.categories := ["review"];
       Agent.tags := ["code-review"; "quality"; "standards"];
       Agent.relevantProjectTypes := ["*"];
       Agent.techKeywords := [];
       Agent.priority := 1 |};
    {| Agent.id := "se-security-reviewer";
       Agent.name := "Security Reviewer";
       Agent.description := "Security-focused code review";
       Agent.categories := ["review"; "security"];
       Agent.tags := ["security"; "review"; "vulnerabilities"];
       Agent.relevantProjectTypes := ["*"];
       Agent.techKeywords := [];
       Agent.priority := 2 |};
    {| Agent.id := "se-system-architecture-reviewer";
       Agent.name := "System Architecture Reviewer";
       Agent.description := "System architecture review and assessment";
       Agent.categories := ["review"; "architecture"];
       Agent.tags := ["architecture"; "review"; "assessment"];
       Agent.relevantProjectTypes := ["*"];
       Agent.techKeywords := [];
       Agent.priority := 2 |};
    {| Agent.id := "critical-thinking";
       Agent.name := "Critical Thinking";
       Agent.description := "Challenges assumptions and encourages deeper analysis";
       Agent.categories := ["review"];
       Agent.tags := ["critical-thinking"; "analysis"; "assumptions"];
       Agent.relevantProjectTypes := ["*"];
       Agent.techKeywords := [];
       Agent.priority := 2 |};
    {| Agent.id := "devils-advocate";
       Agent.name := "Devil's Advocate";
       Agent.description := "Challenges decisions to strengthen solutions";
       Agent.categories := ["review"];
       Agent.tags := ["devils-advocate"; "challenge"; "robustness"];
       Agent.relevantProjectTypes := ["*"];
       Agent.techKeywords := [];
       Agent.priority := 3 |};
    (* -- Prompt & Meta -- *)
    {| Agent.id := "prompt-engineer";
       Agent.name := "Prompt Engineer";
       Agent.description := "Analyzes and improves prompts following OpenAI best practices";
       Agent.categories := ["meta"];
       Agent.tags := ["prompt-engineering"; "optimization"; "llm"];
       Agent.relevantProjectTypes := ["*"];
       Agent.techKeywords := [];
       Agent.priority := 2 |};
    {| Agent.id := "meta-agentic-project-scaffold";
       Agent.name := "Meta Agentic Project Scaffold";
       Agent.description := "Meta-agent for pulling and organizing agentic project structures";
       Agent.categories := ["meta"];
       Agent.tags := ["meta"; "scaffolding"; "agents"; "organization"];
       Agent.relevantProjectTypes := ["*"];
       Agent.techKeywords := [];
       Agent.priority := 2 |};
    {| Agent.id := "custom-agent-foundry";
       Agent.name := "Custom Agent Foundry";
       Agent.description := "Create custom agent definitions";
       Agent.categories := ["meta"];
       Agent.tags := ["agent-creation"; "customization"; "meta"];
       Agent.relevantProjectTypes := ["*"];
       Agent.techKeywords := [];
       Agent.priority := 3 |};
    (* -- MCP Experts -- *)
    {| Agent.id := "typescript-mcp-expert";
       Agent.name := "TypeScript MCP Expert";
       Agent.description := "TypeScript MCP server development specialist";
       Agent.categories := ["engineering"; "backend"];
       Agent.tags := ["mcp"; "typescript"; "server"];
       Agent.relevantProjectTypes := ["api"; "library"];
       Agent.techKeywords := ["TypeScript"; "MCP"];
       Agent.priority := 2 |};
    {| Agent.id := "python-mcp-expert";
       Agent.name := "Python MCP Expert";
       Agent.description := "Python MCP server development specialist";
       Agent.categories := ["engineering"; "backend"];
       Agent.tags := ["mcp"; "python"; "server"];
       Agent.relevantProjectTypes := ["api"; "data-science"];
       Agent.techKeywords := ["Python"; "MCP"];
       Agent.priority := 3 |};
    (* -- Cloud/Azure -- *)
    {| Agent.id := "azure-principal-architect";
       Agent.name := "Azure Principal Architect";
       Agent.description := "Azure cloud architecture and best practices";
       Agent.categories := ["cloud"; "architecture"];
       Agent.tags := ["azure"; "cloud"; "architecture"; "well-architected"];
       Agent.relevantProjectTypes := ["devops"; "api"; "web-app"];
       Agent.techKeywords := ["Azure"];
       Agent.priority := 2 |};
    (* -- Data -- *)
    {| Agent.id := "ms-sql-dba";
       Agent.name := "MS SQL DBA";
       Agent.description := "Microsoft SQL Server database administration";
       Agent.categories := ["data"];
       Agent.tags := ["sql"; "database"; "mssql"; "dba"];
       Agent.relevantProjectTypes := ["api"; "data-science"];
       Agent.techKeywords := ["SQL Server"; "MSSQL"];
       Agent.priority := 3 |};
    {| Agent.id := "postgresql-dba";
       Agent.name := "PostgreSQL DBA";
       Agent.description := "PostgreSQL database administration and optimization";
       Agent.categories := ["data"];
       Agent.tags := ["postgresql"; "database"; "optimization"];
       Agent.relevantProjectTypes := ["api"; "data-science"];
       Agent.techKeywords := ["PostgreSQL"];
       Agent.priority := 3 |};
    (* -- Frontend Frameworks -- *)
    {| Agent.id := "electron-angular-native";
       Agent.name := "Electron Angular Native";
       Agent.description := "Electron with Angular desktop application development";
       Agent.categories := ["frontend"; "engineering"];
       Agent.tags := ["electron"; "angular"; "desktop"];
       Agent.relevantProjectTypes := ["web-app"];
       Agent.techKeywords := ["Electron"; "Angular"];
       Agent.priority := 3 |};
    (* -- Mobile -- *)
    {| Agent.id := "dotnet-maui";
       Agent.name := ".NET MAUI";
       Agent.description := ".NET MAUI cross-platform mobile/desktop development";
       Agent.categories := ["mobile"; "engineering"];
       Agent.tags := ["maui"; "dotnet"; "mobile"; "cross-platform"];
       Agent.relevantProjectTypes := ["mobile"];
       Agent.techKeywords := [".NET"; "MAUI"];
       Agent.priority := 2 |};
    (* -- Creative/Content -- *)
    {| Agent.id := "prd";
       Agent.name := "PRD";
       Agent.description := "Product Requirements Document generator";
       Agent.categories := ["planning"; "documentation"];
       Agent.tags := ["prd"; "requirements"; "product"];
       Agent.relevantProjectTypes := ["*"];
       Agent.techKeywords := [];
       Agent.priority := 2 |};
    {| Agent.id := "specification";
       Agent.name := "Specification";
       Agent.description := "Technical specification document generator";
       Agent.categories := ["planning"; "documentation"];
       Agent.tags := ["specification"; "requirements"; "technical"];
       Agent.relevantProjectTypes := ["*"];
       Agent.techKeywords := [];
       Agent.priority := 2 |};
    (* -- Orchestration -- *)
    {| Agent.id := "gem-orchestrator";
       Agent.name := "Orchestrator";
       Agent.description := "Multi-agent workflow orchestration";
       Agent.categories := ["meta"];
       Agent.tags := ["orchestrator"; "workflow"; "multi-agent"];
       Agent.relevantProjectTypes := ["*"];
       Agent.techKeywords := [];
       Agent.priority := 2 |};
    {| Agent.id := "gem-implementer";
       Agent.name := "Implementer";
       Agent.description := "Code implementation from plans";
       Agent.categories := ["engineering"];
       Agent.tags := ["implementation"; "coding"];
       Agent.relevantProjectTypes := ["*"];
       Agent.techKeywords := [];
       Agent.priority := 2 |};
    {| Agent.id := "gem-researcher";
       Agent.name := "Researcher";
       Agent.description := "Technical research and analysis";
       Agent.categories := ["planning"];
       Agent.tags := ["research"; "analysis"; "investigation"];
       Agent.relevantProjectTypes := ["*"];
       Agent.techKeywords := [];
       Agent.priority := 2 |};
    (* -- Beast Mode / Advanced -- *)
    {| Agent.id := "4.1-Beast";
       Agent.name := "GPT-4.1 Beast Mode";
       Agent.description := "Maximum performance agent with advanced reasoning and comprehensive capabilities";
       Agent.categories := ["engineering"; "meta"];
       Agent.tags := ["beast-mode"; "advanced"; "comprehensive"; "gpt-4.1"];
       Agent.relevantProjectTypes := ["*"];
       Agent.techKeywords := [];
       Agent.priority := 3 |};
    {| Agent.id := "mentor";
       Agent.name := "Mentor";
       Agent.description := "Learning and mentorship guidance";
       Agent.categories := ["documentation"];
       Agent.tags := ["mentor"; "learning"; "guidance"; "education"];
       Agent.relevantProjectTypes := ["learning"];
       Agent.techKeywords := [];
       Agent.priority := 2 |};
    {| Agent.id := "janitor";
       Agent.name := "Janitor";
       Agent.description := "Code cleanup and maintenance";
       Agent.categories := ["review"];
       Agent.tags := ["cleanup"; "maintenance"; "refactor"];
       Agent.relevantProjectTypes := ["*"];
       Agent.techKeywords := [];
       Agent.priority := 3 |}
  ].

(** ** Skill registry *)

Definition SKILL_REGISTRY : list SkillEntry :=
  [
    (* -- Blueprint Generators -- *)
    {| Skill.id := "copilot-instructions-blueprint-generator";
       Skill.name := "Copilot Instructions Blueprint";
       Skill.description := "Technology-agnostic blueprint generator for copilot-instructions.md files";
       Skill.categories := ["blueprint"; "project-setup"];
       Skill.tags := ["copilot"; "instructions"; "blueprint"; "standards"];
       Skill.relevantProjectTypes := ["*"];
       Skill.techKeywords := [];
       Skill.hasResources := false;
       Skill.priority := 1 |};
    {| Skill.id := "folder-structure-blueprint-generator";
       Skill.name := "Folder Structure Blueprint";
       Skill.description := "Analyzes and documents project folder structures with visualization";
       Skill.categories := ["blueprint"; "project-setup"];
       Skill.tags := ["folder-structure"; "blueprint"; "visualization"];
       Skill.relevantProjectTypes := ["*"];
       Skill.techKeywords := [];
       Skill.hasResources := false;
       Skill.priority := 1 |};
    {| Skill.id := "technology-stack-blueprint-generator";
       Skill.name := "Technology Stack Blueprint";
       Skill.description := "Analyzes codebases to create detailed technology stack documentation";
       Skill.categories := ["blueprint"; "analysis"];
       Skill.tags := ["tech-stack"; "blueprint"; "analysis"; "documentation"];
       Skill.relevantProjectTypes := ["*"];
       Skill.techKeywords := [];
       Skill.hasResources := false;
       Skill.priority := 1 |};
    {| Skill.id := "architecture-blueprint-generator";
       Skill.name := "Architecture Blueprint";
       Skill.description := "Generates comprehensive architecture documentation";
       Skill.categories := ["blueprint"];
       Skill.tags := ["architecture"; "blueprint"; "documentation"];
       Skill.relevantProjectTypes := ["*"];
       Skill.techKeywords := [];
       Skill.hasResources := false;
       Skill.priority := 1 |};
    {| Skill.id := "readme-blueprint-generator";
       Skill.name := "README Blueprint";
       Skill.description := "Generates comprehensive README documentation blueprints";
       Skill.categories := ["blueprint"; "document-gen"];
       Skill.tags := ["readme"; "blueprint"; "documentation"];
       Skill.relevantProjectTypes := ["*"];
       Skill.techKeywords := [];
       Skill.hasResources := false;
       Skill.priority := 2 |};
    {| Skill.id := "code-exemplars-blueprint-generator";
       Skill.name := "Code Exemplars Blueprint";
       Skill.description := "Generates code example blueprints for documentation";
       Skill.categories := ["blueprint"];
       Skill.tags := ["code-examples"; "blueprint"; "documentation"];
       Skill.relevantProjectTypes := ["library"];
       Skill.techKeywords := [];
       Skill.hasResources := false;
       Skill.priority := 2 |};
    {| Skill.id := "project-workflow-analysis-blueprint-generator";
       Skill.name := "Project Workflow Blueprint";
       Skill.description := "Analyzes and documents project workflow patterns";
       Skill.categories := ["blueprint"; "analysis"];
       Skill.tags := ["workflow"; "blueprint"; "analysis"];
       Skill.relevantProjectTypes := ["*"];
       Skill.techKeywords := [];
       Skill.hasResources := false;
       Skill.priority := 2 |};
    (* -- Document Generators -- *)
    {| Skill.id := "create-specification";
       Skill.name := "Create Specification";
       Skill.description := "Creates specification files optimized for AI consumption";
       Skill.categories := ["document-gen"];
       Skill.tags := ["specification"; "requirements"; "ai-optimized"];
       Skill.relevantProjectTypes := ["*"];
       Skill.techKeywords := [];
       Skill.hasResources := false;
       Skill.priority := 1 |};
    {| Skill.id := "create-implementation-plan";
       Skill.name := "Create Implementation Plan";
       Skill.description := "Creates deterministic, machine-readable implementation plans";
       Skill.categories := ["document-gen"];
       Skill.tags := ["implementation"; "planning"; "tasks"];
       Skill.relevantProjectTypes := ["*"];
       Skill.techKeywords := [];
       Skill.hasResources := false;
       Skill.priority := 1 |};
    {| Skill.id := "create-readme";
       Skill.name := "Create README";
       Skill.description := "Creates professional README.md files";
       Skill.categories := ["document-gen"];
       Skill.tags := ["readme"; "documentation"; "github"];
       Skill.relevantProjectTypes := ["*"];
       Skill.techKeywords := [];
       Skill.hasResources := false;
       Skill.priority := 1 |};
    {| Skill.id := "create-agentsmd";
       Skill.name := "Create AGENTS.md";
       Skill.description := "Creates AGENTS.md — an open-format README for agents";
       Skill.categories := ["document-gen"; "project-setup"];
       Skill.tags := ["agents.md"; "agent-config"; "documentation"];
       Skill.relevantProjectTypes := ["*"];
       Skill.techKeywords := [];
       Skill.hasResources := false;
       Skill.priority := 1 |};
    {| Skill.id := "create-architectural-decision-record";
       Skill.name := "Create ADR";
       Skill.description := "Creates Architectural Decision Records for AI-optimized decision documentation";
       Skill.categories := ["document-gen"];
       Skill.tags := ["adr"; "architecture"; "decisions"];
       Skill.relevantProjectTypes := ["*"];
       Skill.techKeywords := [];
       Skill.hasResources := false;
       Skill.priority := 1 |};
    {| Skill.id := "create-llms";
       Skill.name := "Create LLMs.txt";
       Skill.description := "Creates LLMs.txt file for AI context";
       Skill.categories := ["document-gen"; "project-setup"];
       Skill.tags := ["llms.txt"; "ai-context"; "documentation"];
       Skill.relevantProjectTypes := ["*"];
       Skill.techKeywords := [];
       Skill.hasResources := false;
       Skill.priority := 2 |};
    {| Skill.id := "prd";
       Skill.name := "Product Requirements Document";
       Skill.description := "Creates Product Requirements Documents (PRD)";
       Skill.categories := ["document-gen"];
       Skill.tags := ["prd"; "requirements"; "product"];
       Skill.relevantProjectTypes := ["web-app"; "api"; "mobile"];
       Skill.techKeywords := [];
       Skill.hasResources := false;
       Skill.priority := 2 |};
    (* -- Git & Workflow -- *)
    {| Skill.id := "conventional-commit";
       Skill.name := "Conventional Commit";
       Skill.description := "Generates standardized conventional commit messages";
       Skill.categories := ["git"];
       Skill.tags := ["commit"; "conventional"; "git"; "workflow"];
       Skill.relevantProjectTypes := ["*"];
       Skill.techKeywords := [];
       Skill.hasResources := false;
       Skill.priority := 1 |};
    {| Skill.id := "git-commit";
       Skill.name := "Git Commit";
       Skill.description := "Git commit message helper";
       Skill.categories := ["git"];
       Skill.tags := ["commit"; "git"];
       Skill.relevantProjectTypes := ["*"];
       Skill.techKeywords := [];
       Skill.hasResources := false;
       Skill.priority := 2 |};
    {| Skill.id := "git-flow-branch-creator";
       Skill.name := "Git Flow Branch Creator";
       Skill.description := "Creates branches following Git Flow naming conventions";
       Skill.categories := ["git"];
       Skill.tags := ["git-flow"; "branching"; "naming"];
       Skill.relevantProjectTypes := ["*"];
       Skill.techKeywords := [];
       Skill.hasResources := false;
       Skill.priority := 2 |};
    (* -- Code Generation -- *)
    {| Skill.id := "generate-custom-instructions-from-codebase";
       Skill.name := "Generate Custom Instructions";
       Skill.description := "Generates migration/evolution instructions by analyzing codebase differences";
       Skill.categories := ["code-gen"; "migration"];
       Skill.tags := ["instructions"; "migration"; "evolution"; "codebase-analysis"];
       Skill.relevantProjectTypes := ["*"];
       Skill.techKeywords := [];
       Skill.hasResources := false;
       Skill.priority := 1 |};
    {| Skill.id := "typescript-mcp-server-generator";
       Skill.name := "TypeScript MCP Server Generator";
       Skill.description := "Generates TypeScript MCP server scaffolding";
       Skill.categories := ["mcp"; "code-gen"];
       Skill.tags := ["mcp"; "typescript"; "server"; "scaffolding"];
       Skill.relevantProjectTypes := ["api"; "library"];
       Skill.techKeywords := ["TypeScript"; "MCP"];
       Skill.hasResources := false;
       Skill.priority := 2 |};
    {| Skill.id := "python-mcp-server-generator";
       Skill.name := "Python MCP Server Generator";
       Skill.description := "Generates Python MCP server scaffolding";
       Skill.categories := ["mcp"; "code-gen"];
       Skill.tags := ["mcp"; "python"; "server"];
       Skill.relevantProjectTypes := ["api"; "data-science"];
       Skill.techKeywords := ["Python"; "MCP"];
       Skill.hasResources := false;
       Skill.priority := 3 |};
    {| Skill.id := "create-spring-boot-java-project";
       Skill.name := "Spring Boot Java Project";
       Skill.description := "Creates Spring Boot Java project scaffolding";
       Skill.categories := ["code-gen"];
       Skill.tags := ["spring-boot"; "java"; "scaffolding"];
       Skill.relevantProjectTypes := ["api"; "web-app"];
       Skill.techKeywords := ["Java"; "Spring Boot"];
       Skill.hasResources := false;
       Skill.priority := 3 |};
    {| Skill.id := "create-spring-boot-kotlin-project";
       Skill.name := "Spring Boot Kotlin Project";
       Skill.description := "Creates Spring Boot Kotlin project scaffolding";
       Skill.categories := ["code-gen"];
       Skill.tags := ["spring-boot"; "kotlin"; "scaffolding"];
       Skill.relevantProjectTypes := ["api"];
       Skill.techKeywords := ["Kotlin"; "Spring Boot"];
       Skill.hasResources := false;
       Skill.priority := 3 |};
    {| Skill.id := "create-web-form";
       Skill.name := "Create Web Form";
       Skill.description := "Generates web form components";
       Skill.categories := ["code-gen"];
       Skill.tags := ["form"; "web"; "components"];
       Skill.relevantProjectTypes := ["web-app"];
       Skill.techKeywords := ["HTML"; "CSS"; "JavaScript"];
       Skill.hasResources := false;
       Skill.priority := 3 |};
    (* -- Testing -- *)
    {| Skill.id := "playwright-generate-test";
       Skill.name := "Playwright Test Generator";
       Skill.description := "Generates Playwright E2E test scenarios";
       Skill.categories := ["testing"];
       Skill.tags := ["playwright"; "e2e"; "test-generation"];
       Skill.relevantProjectTypes := ["web-app"];
       Skill.techKeywords := ["Playwright"; "TypeScript"];
       Skill.hasResources := false;
       Skill.priority := 2 |};
    {| Skill.id := "polyglot-test-agent";
       Skill.name := "Polyglot Test Agent";
       Skill.description := "Multi-language test generation";
       Skill.categories := ["testing"];
       Skill.tags := ["testing"; "polyglot"; "multi-language"];
       Skill.relevantProjectTypes := ["*"];
       Skill.techKeywords := [];
       Skill.hasResources := true;
       Skill.priority := 2 |};
    {| Skill.id := "pytest-coverage";
       Skill.name := "Pytest Coverage";
       Skill.description := "Python test coverage analysis with pytest";
       Skill.categories := ["testing"];
       Skill.tags := ["pytest"; "coverage"; "python"];
       Skill.relevantProjectTypes := ["api"; "data-science"];
       Skill.techKeywords := ["Python"; "pytest"];
       Skill.hasResources := false;
       Skill.priority := 3 |};
    {| Skill.id := "webapp-testing";
       Skill.name := "Web App Testing";
       Skill.description := "Web application testing strategy and execution";
       Skill.categories := ["testing"];
       Skill.tags := ["testing"; "web"; "strategy"];
       Skill.relevantProjectTypes := ["web-app"];
       Skill.techKeywords := [];
       Skill.hasResources := false;
       Skill.priority := 2 |};
    (* -- DevOps -- *)
    {| Skill.id := "multi-stage-dockerfile";
       Skill.name := "Multi-Stage Dockerfile";
       Skill.description := "Creates optimized multi-stage Dockerfiles";
       Skill.categories := ["devops"; "infrastructure"];
       Skill.tags := ["docker"; "dockerfile"; "multi-stage"; "optimization"];
       Skill.relevantProjectTypes := ["devops"; "api"; "web-app"];
       Skill.techKeywords := ["Docker"];
       Skill.hasResources := false;
       Skill.priority := 2 |};
    {| Skill.id := "devops-rollout-plan";
       Skill.name := "DevOps Rollout Plan";
       Skill.description := "Creates deployment rollout plans";
       Skill.categories := ["devops"];
       Skill.tags := ["deployment"; "rollout"; "planning"];
       Skill.relevantProjectTypes := ["devops"];
       Skill.techKeywords := [];
       Skill.hasResources := false;
       Skill.priority := 2 |};
    {| Skill.id := "containerize-aspnetcore";
       Skill.name := "Containerize ASP.NET Core";
       Skill.description := "Containerizes ASP.NET Core applications";
       Skill.categories := ["devops"];
       Skill.tags := ["container"; "docker"; "aspnet"];
       Skill.relevantProjectTypes := ["api"; "web-app"];
       Skill.techKeywords := ["ASP.NET"; ".NET"; "Docker"];
       Skill.hasResources := false;
       Skill.priority := 3 |};
    (* -- Refactoring -- *)
    {| Skill.id := "refactor";
       Skill.name := "Refactor";
       Skill.description := "Code refactoring guidance and execution";
       Skill.categories := ["refactor"];
       Skill.tags := ["refactor"; "code-quality"; "improvement"];
       Skill.relevantProjectTypes := ["*"];
       Skill.techKeywords := [];
       Skill.hasResources := false;
       Skill.priority := 1 |};
    {| Skill.id := "refactor-plan";
       Skill.name := "Refactor Plan";
       Skill.description := "Creates refactoring plans";
       Skill.categories := ["refactor"];
       Skill.tags := ["refactor"; "planning"; "strategy"];
       Skill.relevantProjectTypes := ["*"];
       Skill.techKeywords := [];
       Skill.hasResources := false;
       Skill.priority := 2 |};
    (* -- Analysis -- *)
    {| Skill.id := "context-map";
       Skill.name := "Context Map";
       Skill.description := "Creates context maps for codebases";
       Skill.categories := ["analysis"];
       Skill.tags := ["context"; "mapping"; "understanding"];
       Skill.relevantProjectTypes := ["*"];
       Skill.techKeywords := [];
       Skill.hasResources := false;
       Skill.priority := 1 |};
    {| Skill.id := "what-context-needed";
       Skill.name := "What Context Needed";
       Skill.description := "Identifies what context is needed for a task";
       Skill.categories := ["analysis"];
       Skill.tags := ["context"; "analysis"; "planning"];
       Skill.relevantProjectTypes := ["*"];
       Skill.techKeywords := [];
       Skill.hasResources := false;
       Skill.priority := 2 |};
    (* -- Prompt Engineering -- *)
    {| Skill.id := "prompt-builder";
       Skill.name := "Prompt Builder";
       Skill.description := "Builds and optimizes prompts";
       Skill.categories := ["prompt"];
       Skill.tags := ["prompt"; "optimization"; "engineering"];
       Skill.relevantProjectTypes := ["*"];
       Skill.techKeywords := [];
       Skill.hasResources := false;
       Skill.priority := 2 |};
    {| Skill.id := "boost-prompt";
       Skill.name := "Boost Prompt";
       Skill.description := "Enhances and improves existing prompts";
       Skill.categories := ["prompt"];
       Skill.tags := ["prompt"; "enhancement"; "improvement"];
       Skill.relevantProjectTypes := ["*"];
       Skill.techKeywords := [];
       Skill.hasResources := false;
       Skill.priority := 3 |};
    (* -- Project Setup -- *)
    {| Skill.id := "editorconfig";
       Skill.name := "EditorConfig";
       Skill.description := "Creates .editorconfig files for consistent coding styles";
       Skill.categories := ["project-setup"];
       Skill.tags := ["editorconfig"; "coding-style"; "consistency"];
       Skill.relevantProjectTypes := ["*"];
       Skill.techKeywords := [];
       Skill.hasResources := false;
       Skill.priority := 1 |};
    {| Skill.id := "create-github-action-workflow-specification";
       Skill.name := "GitHub Actions Workflow";
       Skill.description := "Creates GitHub Actions workflow specifications";
       Skill.categories := ["devops"; "project-setup"];
       Skill.tags := ["github-actions"; "ci"; "workflow"];
       Skill.relevantProjectTypes := ["*"];
       Skill.techKeywords := ["GitHub Actions"];
       Skill.hasResources := false;
       Skill.priority := 2 |};
    {| Skill.id := "finalize-agent-prompt";
       Skill.name := "Finalize Agent Prompt";
       Skill.description := "Finalizes and polishes agent prompt definitions";
       Skill.categories := ["prompt"; "project-setup"];
       Skill.tags := ["agent"; "prompt"; "finalization"];
       Skill.relevantProjectTypes := ["*"];
       Skill.techKeywords := [];
       Skill.hasResources := false;
       Skill.priority := 2 |};
    (* -- Migration -- *)
    {| Skill.id := "dotnet-upgrade";
       Skill.name := ".NET Upgrade";
       Skill.description := ".NET framework/version upgrade assistance";
       Skill.categories := ["migration"];
       Skill.tags := ["dotnet"; "upgrade"; "migration"];
       Skill.relevantProjectTypes := ["web-app"; "api"];
       Skill.techKeywords := [".NET"; "C#"];
       Skill.hasResources := false;
       Skill.priority := 3 |};
    (* -- Platform Specific -- *)
    {| Skill.id := "excalidraw-diagram-generator";
       Skill.name := "Excalidraw Diagram Generator";
       Skill.description := "Generates Excalidraw diagrams with templates for various diagram types";
       Skill.categories := ["document-gen"];
       Skill.tags := ["excalidraw"; "diagrams"; "visualization"];
       Skill.relevantProjectTypes := ["*"];
       Skill.techKeywords := [];
       Skill.hasResources := true;
       Skill.priority := 3 |};
    {| Skill.id := "aspire";
       Skill.name := ".NET Aspire";
       Skill.description := ".NET Aspire cloud-native application development";
       Skill.categories := ["platform"];
       Skill.tags := ["aspire"; "dotnet"; "cloud-native"];
       Skill.relevantProjectTypes := ["api"; "web-app"];
       Skill.techKeywords := [".NET"; "Aspire"];
       Skill.hasResources := true;
       Skill.priority := 3 |}
  ].

(** ** Arrays and sets *)

(** [arr.includes(x)] on an array of strings. *)
Definition Array_includes (arr : list string) (x : string) : bool :=
  existsb (String.eqb x) arr.

(** [arr.join(sep)] on an array of strings. *)
Definition Array_join (sep : string) (arr : list string) : string :=
  String.concat sep arr.

Section ArraySort.
Context {A : Type} (comparefn : A -> A -> Z).

(** [x] stood before every element of [l] in the array being sorted: it
    passes the elements that [comparefn] puts before it and stops at the
    first one that it does not. *)
Fixpoint sortInsert (x : A) (l : list A) : list A :=
  match l with
  | [] => [x]
  | y :: l' => if 0 <? comparefn x y then y :: sortInsert x l' else x :: l
  end.

(** [arr.sort(comparefn)]. The language requires the sort to be stable,
    so its result on a consistent comparator does not depend on the
    algorithm; [Array_sort_unique] below shows this for the comparator
    of the ranking. *)
Definition Array_sort (arr : list A) : list A :=
  fold_right sortInsert [] arr.

(** [arr.slice(0, n)]: a negative [n] counts from the end. *)
Definition slice0 (n : Z) (arr : list A) : list A :=
  let len := Z.of_nat (List.length arr) in
  let final := if n <? 0 then Z.max (len + n) 0 else Z.min n len in
  firstn (Z.to_nat final) arr.
End ArraySort.

(** [set.add(c)] on a [Set] of strings. *)
Definition Set_add (set : list string) (c : string) : list string :=
  if Array_includes set c then set else set ++ [c].

(** The comparator [sort()] uses when it is given none. *)
Definition defaultCompare (a b : string) : Z :=
  match String.compare a b with
  | Lt => -1
  | Eq => 0
  | Gt => 1
  end.

(** ** Recommendation engine *)

Record RecommendationResult : Type := {
  agents : list AgentEntry;
  skills : list SkillEntry;
  summary : string
}.

(** The argument of [recommendAgentSkills]; every property is optional. *)
Record Options : Type := {
  projectType : option string;
  techStack : option (list string);
  userIntent : option string;
  maxAgents : option Z;
  maxSkills : option Z
}.

(** A destructuring default: [{ x = d } = options]. *)
Definition orDefault {A : Type} (d : A) (v : option A) : A :=
  match v with
  | Some x => x
  | None => d
  end.

Definition projectTypeOf (options : Options) : string :=
  orDefault "other" (projectType options).
Definition techStackOf (options : Options) : list string :=
  orDefault [] (techStack options).
Definition userIntentOf (options : Options) : string :=
  orDefault "" (userIntent options).
Definition maxAgentsOf (options : Options) : Z :=
  orDefault 10 (maxAgents options).
Definition maxSkillsOf (options : Options) : Z :=
  orDefault 15 (maxSkills options).

Section Scoring.
Context {E : Type} `{CatalogEntry E}.

(** The test of the tech-stack loop for one keyword. *)
Definition techKeywordMatches (techLower : list string) (keyword : string) : bool :=
  existsb (fun t => includes t (toLowerCase keyword)
                    || includes (toLowerCase keyword) t) techLower.

(** The body of the callback given to [map]: the score of one entry. *)
Definition scoreEntry (projectType : string) (techLower : list string)
    (intentLower : string) (e : E) : Z :=
  let score := 0 in
  (* Project type match *)
  let score :=
    if Array_includes (entryRelevantProjectTypes e) "*"
       || Array_includes (entryRelevantProjectTypes e) projectType
    then score + 10 else score in
  (* Tech stack match *)
  let score :=
    fold_left (fun score keyword =>
                 if techKeywordMatches techLower keyword
                 then score + 5 else score)
              (entryTechKeywords e) score in
  (* Intent/tag match *)
  let score :=
    fold_left (fun score tag =>
                 if includes intentLower tag then score + 3 else score)
              (entryTags e) score in
  (* Priority bonus *)
  score + (4 - entryPriority e) * 2.

(** [REGISTRY.map((entry) => ({ entry, score }))]. *)
Definition scoreAll (options : Options) (registry : list E) : list (E * Z) :=
  let intentLower := toLowerCase (userIntentOf options) in
  let techLower := map toLowerCase (techStackOf options) in
  map (fun e => (e, scoreEntry (projectTypeOf options) techLower intentLower e))
      registry.

(** [.filter((s) => s.score > 0)]. *)
Definition keepPositive (scored : list (E * Z)) : list (E * Z) :=
  filter (fun s => 0 <? snd s) scored.

(** [.sort((a, b) => b.score - a.score)]. *)
Definition sortByScore (scored : list (E * Z)) : list (E * Z) :=
  Array_sort (fun a b => snd b - snd a) scored.

(** The chain [.filter(...).sort(...).slice(0, max).map((s) => s.entry)]. *)
Definition rank (max : Z) (scored : list (E * Z)) : list E :=
  map fst (slice0 max (sortByScore (keepPositive scored))).

(** One line of the summary. *)
Definition summaryLine (e : E) : string :=
  ("  - **" ++ entryName e ++ "** (`" ++ entryId e ++ "`): "
     ++ entryDescription e)%string.

(** The filter callback of [searchAgentSkills]. *)
Definition matchesQuery (q : string) (e : E) : bool :=
  includes (toLowerCase (entryName e)) q
  || includes (toLowerCase (entryDescription e)) q
  || existsb (fun t => includes t q) (entryTags e)
  || existsb (fun c => includes c q) (entryCategories e).

(** The loop of [listCategories] over one registry. *)
Definition collectCategories (registry : list E) : list string :=
  fold_left (fun cats e => fold_left Set_add (entryCategories e) cats)
            registry [].
End Scoring.

(** Recommend agents and skills based on project type, tech stack, and user
    intent. *)
Definition recommendAgentSkills (options : Options) : RecommendationResult :=
  let projectType := projectTypeOf options in
  let techStack := techStackOf options in
  let maxAgents := maxAgentsOf options in
  let maxSkills := maxSkillsOf options in
  (* Score agents *)
  let scoredAgents := rank maxAgents (scoreAll options AGENT_REGISTRY) in
  (* Score skills *)
  let scoredSkills := rank maxSkills (scoreAll options SKILL_REGISTRY) in
  (* Build summary *)
  let agentList := Array_join nl (map summaryLine scoredAgents) in
  let skillList := Array_join nl (map summaryLine scoredSkills) in
  let summary :=
    trim (nl
      ++ "🤖 추천 Agent Skills (프로젝트: " ++ projectType ++ ", 기술: "
      ++ orElse (Array_join ", " techStack) "미지정" ++ ")" ++ nl
      ++ nl
      ++ "## 추천 에이전트 (" ++ showLength scoredAgents ++ "개)" ++ nl
      ++ orElse agentList "  없음" ++ nl
      ++ nl
      ++ "## 추천 스킬 (" ++ showLength scoredSkills ++ "개)" ++ nl
      ++ orElse skillList "  없음" ++ nl
      ++ nl
      ++ "💡 선택한 항목을 `install_agent_skills` 도구로 설치하면" ++ nl
      ++ "`.github/skills/` 및 `.github/agents/` 에 자동 배포됩니다." ++ nl)%string in
  {| agents := scoredAgents; skills := scoredSkills; summary := summary |}.

(** Search agents and skills by free-text query. *)
Definition searchAgentSkills (query : string) : RecommendationResult :=
  let q := toLowerCase query in
  let matchedAgents := filter (matchesQuery q) AGENT_REGISTRY in
  let matchedSkills := filter (matchesQuery q) SKILL_REGISTRY in
  let agentList := Array_join nl (map summaryLine matchedAgents) in
  let skillList := Array_join nl (map summaryLine matchedSkills) in
  let summary :=
    trim (nl
      ++ "🔍 검색 결과: " ++ dq ++ query ++ dq ++ nl
      ++ nl
      ++ "## 에이전트 (" ++ showLength matchedAgents ++ "개)" ++ nl
      ++ orElse agentList "  없음" ++ nl
      ++ nl
      ++ "## 스킬 (" ++ showLength matchedSkills ++ "개)" ++ nl
      ++ orElse skillList "  없음" ++ nl)%string in
  {| agents := matchedAgents; skills := matchedSkills; summary := summary |}.

Record CategoryIndex : Type := {
  agentCategories : list string;
  skillCategories : list string
}.

(** Get all unique categories across agents and skills. *)
Definition listCategories : CategoryIndex :=
  let agentCats := collectCategories AGENT_REGISTRY in
  let skillCats := collectCategories SKILL_REGISTRY in
  {| agentCategories := Array_sort defaultCompare agentCats;
     skillCategories := Array_sort defaultCompare skillCats |}.

(** ** File generator for the recommended skills and agents *)

(** Result of a single file generation. *)
Record GeneratedFile : Type := {
  relativePath : string;
  content : string
}.

Module Params.
(** Input parameters for workspace initialization; a property marked [?]
    is an [option]. *)
Record WorkspaceInitParams : Type := {
  workspaceName : string;
  purpose : string;
  workspacePath : string;
  projectType : option string;
  techStack : option (list string);
  docLanguage : option string;
  codeCommentLanguage : option string;
  isMultiRepo : option bool;
  additionalContext : option string;
  plannedTasks : option (list string);
  includeAgentSkills : option bool;
  agentSkillsIntent : option string
}.
End Params.

Module Generate.
(** The second argument of [generateAgentSkills]. *)
Record Options : Type := {
  skillIds : option (list string);
  agentIds : option (list string);
  userIntent : option string;
  maxAgents : option Z;
  maxSkills : option Z
}.
End Generate.

(** [arr?.join(sep)], with [undefined] read as the empty string: both are
    falsy where the code uses the result. *)
Definition joinOptional (sep : string) (arr : option (list string)) : string :=
  match arr with
  | Some l => Array_join sep l
  | None => EmptyString
  end.

(** [options?.x]: the property of an argument that may be absent. *)
Definition optionalProperty {O A : Type} (x : O -> option A) (options : option O)
    : option A :=
  match options with
  | Some o => x o
  | None => None
  end.

(** One item of a tag list. *)
Definition tagLine (t : string) : string := ("- `" ++ t ++ "`")%string.

Definition buildBlueprintInstructions (skill : SkillEntry) : string :=
   ("## Instructions" ++ nl ++
     nl ++
     "1. Analyze the current workspace to understand the project structure, tech stack, and conventions" ++ nl ++
     "2. Identify key patterns, dependencies, and architectural decisions" ++ nl ++
     "3. Generate a comprehensive blueprint document that captures:" ++ nl ++
     "   - Project overview and purpose" ++ nl ++
     "   - Technical architecture and design patterns" ++ nl ++
     "   - Key conventions and standards" ++ nl ++
     "   - Dependency map and relationships" ++ nl ++
     "4. Output the blueprint in a structured, consumable format" ++ nl ++
     nl ++
     "## Output Format" ++ nl ++
     nl ++
     "Create a well-structured Markdown document with clear sections, diagrams (where applicable using Mermaid), and actionable guidance." ++ nl ++
     nl ++
     "## Tags" ++ nl ++
     nl ++
     Array_join nl (map tagLine (Skill.tags skill)) ++ nl)%string.

Definition buildDocGenInstructions (skill : SkillEntry) : string :=
   ("## Instructions" ++ nl ++
     nl ++
     "1. Understand the context and purpose of the document to be generated" ++ nl ++
     "2. Analyze the workspace for relevant information (code, configs, existing docs)" ++ nl ++
     "3. Follow established documentation standards and templates" ++ nl ++
     "4. Generate the document with:" ++ nl ++
     "   - Clear structure and headings" ++ nl ++
     "   - Accurate technical details" ++ nl ++
     "   - Actionable content" ++ nl ++
     "   - Proper formatting (Markdown)" ++ nl ++
     "5. Validate the output against quality criteria" ++ nl ++
     nl ++
     "## Quality Criteria" ++ nl ++
     nl ++
     "- Accurate and up-to-date information" ++ nl ++
     "- Clear, concise writing" ++ nl ++
     "- Proper formatting and structure" ++ nl ++
     "- Appropriate level of detail for the target audience" ++ nl ++
     nl ++
     "## Tags" ++ nl ++
     nl ++
     Array_join nl (map tagLine (Skill.tags skill)) ++ nl)%string.

Definition buildTestingInstructions (skill : SkillEntry) : string :=
   ("## Instructions" ++ nl ++
     nl ++
     "1. Analyze the code under test to understand its behavior and edge cases" ++ nl ++
     "2. Determine the appropriate testing strategy (unit, integration, E2E)" ++ nl ++
     "3. Generate test cases covering:" ++ nl ++
     "   - Happy path scenarios" ++ nl ++
     "   - Edge cases and boundary conditions" ++ nl ++
     "   - Error handling paths" ++ nl ++
     "   - Input validation" ++ nl ++
     "4. Follow testing best practices:" ++ nl ++
     "   - Arrange-Act-Assert pattern" ++ nl ++
     "   - Descriptive test names" ++ nl ++
     "   - Isolated and independent tests" ++ nl ++
     "   - Proper mocking and stubbing" ++ nl ++
     nl ++
     "## Test Framework Convention" ++ nl ++
     nl ++
     "Use the project's established testing framework. If none exists, recommend based on the tech stack." ++ nl ++
     nl ++
     "## Tags" ++ nl ++
     nl ++
     Array_join nl (map tagLine (Skill.tags skill)) ++ nl)%string.

Definition buildGitInstructions (skill : SkillEntry) : string :=
   ("## Instructions" ++ nl ++
     nl ++
     "1. Follow the project's established Git workflow conventions" ++ nl ++
     "2. Ensure commit messages follow the conventional commit format when applicable" ++ nl ++
     "3. Reference relevant issues or tickets in messages" ++ nl ++
     "4. Keep changes atomic and focused" ++ nl ++
     nl ++
     "## Conventional Commit Format" ++ nl ++
     nl ++
     "```" ++ nl ++
     "<type>(<scope>): <subject>" ++ nl ++
     nl ++
     "<body>" ++ nl ++
     nl ++
     "<footer>" ++ nl ++
     "```" ++ nl ++
     nl ++
     "Types: feat, fix, docs, style, refactor, perf, test, build, ci, chore, revert" ++ nl ++
     nl ++
     "## Tags" ++ nl ++
     nl ++
     Array_join nl (map tagLine (Skill.tags skill)) ++ nl)%string.

Definition buildDevOpsInstructions (skill : SkillEntry) : string :=
   ("## Instructions" ++ nl ++
     nl ++
     "1. Follow infrastructure-as-code principles" ++ nl ++
     "2. Ensure configurations are reproducible and version-controlled" ++ nl ++
     "3. Apply security best practices (least privilege, secret management)" ++ nl ++
     "4. Document operational procedures and runbooks" ++ nl ++
     "5. Consider observability (logging, monitoring, alerting)" ++ nl ++
     nl ++
     "## Best Practices" ++ nl ++
     nl ++
     "- Use multi-stage builds for containers" ++ nl ++
     "- Implement health checks and readiness probes" ++ nl ++
     "- Follow the 12-factor app methodology" ++ nl ++
     "- Automate everything that can be automated" ++ nl ++
     nl ++
     "## Tags" ++ nl ++
     nl ++
     Array_join nl (map tagLine (Skill.tags skill)) ++ nl)%string.

Definition buildCodeGenInstructions (skill : SkillEntry) : string :=
   ("## Instructions" ++ nl ++
     nl ++
     "1. Analyze requirements and existing code patterns in the workspace" ++ nl ++
     "2. Follow the project's established coding conventions" ++ nl ++
     "3. Generate clean, maintainable code that follows SOLID principles" ++ nl ++
     "4. Include proper error handling, logging, and documentation" ++ nl ++
     "5. Add appropriate tests for generated code" ++ nl ++
     nl ++
     "## Code Quality Standards" ++ nl ++
     nl ++
     "- Follow DRY (Don't Repeat Yourself) principle" ++ nl ++
     "- Use meaningful variable and function names" ++ nl ++
     "- Keep functions small and focused (SRP)" ++ nl ++
     "- Add JSDoc/docstring comments for public APIs" ++ nl ++
     nl ++
     "## Tags" ++ nl ++
     nl ++
     Array_join nl (map tagLine (Skill.tags skill)) ++ nl)%string.

Definition buildRefactorInstructions (skill : SkillEntry) : string :=
   ("## Instructions" ++ nl ++
     nl ++
     "1. Identify code smells and areas for improvement" ++ nl ++
     "2. Create a refactoring plan with prioritized changes" ++ nl ++
     "3. Apply refactoring patterns:" ++ nl ++
     "   - Extract method/class for large functions" ++ nl ++
     "   - Replace conditionals with polymorphism" ++ nl ++
     "   - Simplify complex expressions" ++ nl ++
     "   - Remove dead code and duplication" ++ nl ++
     "4. Ensure all tests pass before and after refactoring" ++ nl ++
     "5. Make incremental changes with clear commit messages" ++ nl ++
     nl ++
     "## Tags" ++ nl ++
     nl ++
     Array_join nl (map tagLine (Skill.tags skill)) ++ nl)%string.

Definition buildAnalysisInstructions (skill : SkillEntry) : string :=
   ("## Instructions" ++ nl ++
     nl ++
     "1. Systematically analyze the target (code, architecture, performance, etc.)" ++ nl ++
     "2. Identify patterns, issues, and opportunities" ++ nl ++
     "3. Provide evidence-based findings" ++ nl ++
     "4. Recommend actionable improvements with priority levels" ++ nl ++
     "5. Document analysis methodology and results" ++ nl ++
     nl ++
     "## Tags" ++ nl ++
     nl ++
     Array_join nl (map tagLine (Skill.tags skill)) ++ nl)%string.

Definition buildMcpInstructions (skill : SkillEntry) : string :=
   ("## Instructions" ++ nl ++
     nl ++
     "1. Follow the Model Context Protocol (MCP) specification" ++ nl ++
     "2. Use the latest MCP SDK APIs (registerTool, registerPrompt, registerResource)" ++ nl ++
     "3. Define proper Zod schemas for tool parameters" ++ nl ++
     "4. Implement proper error handling and validation" ++ nl ++
     "5. Follow stdio transport conventions" ++ nl ++
     nl ++
     "## MCP Best Practices" ++ nl ++
     nl ++
     "- Use descriptive tool names and descriptions" ++ nl ++
     "- Validate all inputs with Zod schemas" ++ nl ++
     "- Return structured, parseable responses" ++ nl ++
     "- Keep tools focused — one responsibility per tool" ++ nl ++
     nl ++
     "## Tags" ++ nl ++
     nl ++
     Array_join nl (map tagLine (Skill.tags skill)) ++ nl)%string.

Definition buildProjectSetupInstructions (skill : SkillEntry) : string :=
   ("## Instructions" ++ nl ++
     nl ++
     "1. Analyze the project type and requirements" ++ nl ++
     "2. Set up appropriate project structure and configuration" ++ nl ++
     "3. Apply consistent coding standards and formatting rules" ++ nl ++
     "4. Configure development environment tools" ++ nl ++
     "5. Create necessary configuration files" ++ nl ++
     nl ++
     "## Tags" ++ nl ++
     nl ++
     Array_join nl (map tagLine (Skill.tags skill)) ++ nl)%string.

Definition buildPromptInstructions (skill : SkillEntry) : string :=
   ("## Instructions" ++ nl ++
     nl ++
     "1. Analyze the target prompt or instruction" ++ nl ++
     "2. Apply prompt engineering best practices:" ++ nl ++
     "   - Clear, specific instructions" ++ nl ++
     "   - Structured format with sections" ++ nl ++
     "   - Examples where helpful" ++ nl ++
     "   - Constraints and guardrails" ++ nl ++
     "3. Optimize for the target AI model or workflow" ++ nl ++
     "4. Test and iterate on the prompt" ++ nl ++
     nl ++
     "## Tags" ++ nl ++
     nl ++
     Array_join nl (map tagLine (Skill.tags skill)) ++ nl)%string.

Definition buildGenericInstructions (skill : SkillEntry) : string :=
   ("## Instructions" ++ nl ++
     nl ++
     "Follow best practices for " ++ toLowerCase (Skill.name skill) ++ "." ++ nl ++
     "Analyze the workspace context before taking action." ++ nl ++
     "Provide structured, actionable output." ++ nl ++
     nl ++
     "## Tags" ++ nl ++
     nl ++
     Array_join nl (map tagLine (Skill.tags skill)) ++ nl)%string.

Definition buildSkillBody (skill : SkillEntry) : string :=
  (* Generate instructions based on category *)
  let sections : list string := [] in
  let sections := sections ++ [("# " ++ Skill.name skill ++ nl)%string] in
  let sections := sections ++ [(Skill.description skill ++ nl)%string] in
  (* Category-specific instructions *)
  let sections :=
    if Array_includes (Skill.categories skill) "blueprint"
    then sections ++ [buildBlueprintInstructions skill]
    else if Array_includes (Skill.categories skill) "document-gen"
    then sections ++ [buildDocGenInstructions skill]
    else if Array_includes (Skill.categories skill) "testing"
    then sections ++ [buildTestingInstructions skill]
    else if Array_includes (Skill.categories skill) "git"
    then sections ++ [buildGitInstructions skill]
    else if Array_includes (Skill.categories skill) "devops"
    then sections ++ [buildDevOpsInstructions skill]
    else if Array_includes (Skill.categories skill) "code-gen"
    then sections ++ [buildCodeGenInstructions skill]
    else if Array_includes (Skill.categories skill) "refactor"
    then sections ++ [buildRefactorInstructions skill]
    else if Array_includes (Skill.categories skill) "analysis"
    then sections ++ [buildAnalysisInstructions skill]
    else if Array_includes (Skill.categories skill) "mcp"
    then sections ++ [buildMcpInstructions skill]
    else if Array_includes (Skill.categories skill) "project-setup"
    then sections ++ [buildProjectSetupInstructions skill]
    else if Array_includes (Skill.categories skill) "prompt"
    then sections ++ [buildPromptInstructions skill]
    else sections ++ [buildGenericInstructions skill] in
  Array_join nl sections.

Definition buildSkillMd (skill : SkillEntry) : string :=
  let frontmatter :=
    Array_join nl
      ["---";
       ("name: " ++ dq ++ Skill.name skill ++ dq)%string;
       ("description: " ++ dq ++ Skill.description skill ++ dq)%string;
       ("argument-hint: " ++ dq ++ "Describe what you need for "
          ++ toLowerCase (Skill.name skill) ++ dq)%string;
       "user-invokable: true";
       "disable-model-invocation: false";
       "---"] in
  let body := buildSkillBody skill in
  (frontmatter ++ nl ++ nl ++ body ++ nl)%string.

Definition buildAgentBody (agent : AgentEntry) : string :=
  let sections : list string := [] in
  let sections := sections ++ [("# " ++ Agent.name agent ++ nl)%string] in
  let sections := sections ++ [(Agent.description agent ++ nl)%string] in
  (* Category-specific agent instructions *)
  let sections :=
    if Array_includes (Agent.categories agent) "planning"
    then sections ++
      [("## Approach" ++ nl ++
         nl ++
         "1. **Analyze** — Understand the full context before proposing solutions" ++ nl ++
         "2. **Plan** — Break down complex tasks into manageable steps" ++ nl ++
         "3. **Document** — Record decisions and rationale" ++ nl ++
         "4. **Execute** — Implement the plan step by step" ++ nl ++
         "5. **Review** — Validate results against requirements" ++ nl)%string]
    else sections in
  let sections :=
    if Array_includes (Agent.categories agent) "engineering"
    then sections ++
      [("## Engineering Standards" ++ nl ++
         nl ++
         "- Write clean, maintainable, well-documented code" ++ nl ++
         "- Follow SOLID principles and design patterns" ++ nl ++
         "- Ensure proper error handling and logging" ++ nl ++
         "- Write tests alongside implementation" ++ nl ++
         "- Consider performance and scalability" ++ nl)%string]
    else sections in
  let sections :=
    if Array_includes (Agent.categories agent) "debugging"
    then sections ++
      [("## Debugging Methodology" ++ nl ++
         nl ++
         "1. **Assess** — Reproduce and understand the problem" ++ nl ++
         "2. **Investigate** — Identify root cause through systematic analysis" ++ nl ++
         "3. **Resolve** — Apply minimal, targeted fix" ++ nl ++
         "4. **QA** — Verify fix and check for regressions" ++ nl)%string]
    else sections in
  let sections :=
    if Array_includes (Agent.categories agent) "testing"
    then sections ++
      [("## Testing Philosophy" ++ nl ++
         nl ++
         "- Prioritize test reliability over coverage numbers" ++ nl ++
         "- Test behavior, not implementation details" ++ nl ++
         "- Use meaningful test descriptions" ++ nl ++
         "- Maintain fast feedback loops" ++ nl)%string]
    else sections in
  let sections :=
    if Array_includes (Agent.categories agent) "devops"
    then sections ++
      [("## DevOps Principles" ++ nl ++
         nl ++
         "- Infrastructure as Code (IaC)" ++ nl ++
         "- Automate repetitive operations" ++ nl ++
         "- Monitor, measure, improve (DORA metrics)" ++ nl ++
         "- Security-first approach" ++ nl)%string]
    else sections in
  let sections :=
    if Array_includes (Agent.categories agent) "review"
    then sections ++
      [("## Review Criteria" ++ nl ++
         nl ++
         "- Code correctness and completeness" ++ nl ++
         "- Adherence to project conventions" ++ nl ++
         "- Performance implications" ++ nl ++
         "- Security considerations" ++ nl ++
         "- Test coverage and quality" ++ nl)%string]
    else sections in
  let sections :=
    if Array_includes (Agent.categories agent) "documentation"
    then sections ++
      [("## Documentation Standards" ++ nl ++
         nl ++
         "- Write for the target audience" ++ nl ++
         "- Keep content accurate and up-to-date" ++ nl ++
         "- Use consistent formatting and terminology" ++ nl ++
         "- Include examples and references" ++ nl)%string]
    else sections in
  let sections :=
    if Array_includes (Agent.categories agent) "architecture"
    then sections ++
      [("## Architecture Guidelines" ++ nl ++
         nl ++
         "- Keep components loosely coupled" ++ nl ++
         "- Define clear boundaries and interfaces" ++ nl ++
         "- Document architectural decisions (ADR)" ++ nl ++
         "- Consider system quality attributes (scalability, reliability, security)" ++ nl)%string]
    else sections in
  let sections :=
    if Array_includes (Agent.categories agent) "security"
    then sections ++
      [("## Security Focus" ++ nl ++
         nl ++
         "- Review for OWASP Top 10 vulnerabilities" ++ nl ++
         "- Validate input at all boundaries" ++ nl ++
         "- Follow least privilege principle" ++ nl ++
         "- Audit dependency security" ++ nl)%string]
    else sections in
  let sections :=
    if Array_includes (Agent.categories agent) "meta"
    then sections ++
      [("## Meta-Agent Capabilities" ++ nl ++
         nl ++
         "- Orchestrate and coordinate multi-step workflows" ++ nl ++
         "- Analyze and optimize processes" ++ nl ++
         "- Generate and refine agent/skill configurations" ++ nl)%string]
    else sections in
  (* Tags section *)
  let sections := sections ++ [("## Specialization Tags" ++ nl)%string] in
  let sections := sections ++ [Array_join nl (map tagLine (Agent.tags agent))] in
  Array_join nl sections.

Definition buildAgentMd (agent : AgentEntry) : string :=
  let frontmatter :=
    Array_join nl
      ["---";
       ("name: " ++ dq ++ Agent.name agent ++ dq)%string;
       ("description: " ++ dq ++ Agent.description agent ++ dq)%string;
       "tools: []";
       "---"] in
  let body := buildAgentBody agent in
  (frontmatter ++ nl ++ nl ++ body ++ nl)%string.

(** Generate an index file listing all installed skills and agents. *)
Definition generateSkillsIndex (agents : list AgentEntry) (skills : list SkillEntry)
    (params : Params.WorkspaceInitParams) : GeneratedFile :=
  let skillsList :=
    Array_join nl
      (map (fun s =>
              ("| [`" ++ Skill.id s ++ "`](skills/" ++ Skill.id s
                 ++ "/SKILL.md) | " ++ Skill.name s ++ " | "
                 ++ Skill.description s ++ " | "
                 ++ Array_join ", " (Skill.categories s) ++ " |")%string)
           skills) in
  let agentsList :=
    Array_join nl
      (map (fun a =>
              ("| [`" ++ Agent.id a ++ "`](agents/" ++ Agent.id a
                 ++ ".agent.md) | " ++ Agent.name a ++ " | "
                 ++ Agent.description a ++ " | "
                 ++ Array_join ", " (Agent.categories a) ++ " |")%string)
           agents) in
  let content :=
     ("# Agent Skills & Agents Registry" ++ nl ++
       nl ++
       "> Auto-generated by workspace-init-mcp for **" ++ Params.workspaceName params ++ "**" ++ nl ++
       "> Project type: " ++ orDefault "other" (Params.projectType params) ++ " | Tech: " ++ orElse (joinOptional ", " (Params.techStack params)) "미지정" ++ nl ++
       nl ++
       "## Installed Skills (" ++ showLength skills ++ ")" ++ nl ++
       nl ++
       "| ID | Name | Description | Categories |" ++ nl ++
       "|---|---|---|---|" ++ nl ++
       skillsList ++ nl ++
       nl ++
       "## Installed Agents (" ++ showLength agents ++ ")" ++ nl ++
       nl ++
       "| ID | Name | Description | Categories |" ++ nl ++
       "|---|---|---|---|" ++ nl ++
       agentsList ++ nl ++
       nl ++
       "## Skill Discovery" ++ nl ++
       nl ++
       "Skills are discovered automatically by compatible AI tools:" ++ nl ++
       "- **VS Code Copilot**: Reads from `.github/skills/`" ++ nl ++
       "- **Claude Code**: Reads from `.claude/skills/` or `.github/skills/`" ++ nl ++
       "- **Cursor**: Reads from `.cursor/skills/` or `.github/skills/`" ++ nl ++
       "- **OpenHands**: Reads from `.agents/skills/` or `.github/skills/`" ++ nl ++
       nl ++
       "## Adding New Skills" ++ nl ++
       nl ++
       "Create a new directory under `.github/skills/` with a `SKILL.md` file:" ++ nl ++
       nl ++
       "```" ++ nl ++
       ".github/skills/" ++ nl ++
       "  my-custom-skill/" ++ nl ++
       "    SKILL.md          # Required: skill definition" ++ nl ++
       "    references/       # Optional: reference documents" ++ nl ++
       "    templates/        # Optional: template files" ++ nl ++
       "    scripts/          # Optional: automation scripts" ++ nl ++
       "    examples/         # Optional: usage examples" ++ nl ++
       "```" ++ nl ++
       nl ++
       "### SKILL.md Format" ++ nl ++
       nl ++
       "```markdown" ++ nl ++
       "---" ++ nl ++
       "name: " ++ dq ++ "My Custom Skill" ++ dq ++ nl ++
       "description: " ++ dq ++ "What this skill does" ++ dq ++ nl ++
       "argument-hint: " ++ dq ++ "How to invoke this skill" ++ dq ++ nl ++
       "user-invokable: true" ++ nl ++
       "disable-model-invocation: false" ++ nl ++
       "---" ++ nl ++
       nl ++
       "# My Custom Skill" ++ nl ++
       nl ++
       "Instructions for the AI agent..." ++ nl ++
       "```" ++ nl ++
       nl ++
       "## References" ++ nl ++
       nl ++
       "- [Agent Skills Standard](https://agentskills.io)" ++ nl ++
       "- [VS Code Agent Skills Docs](https://code.visualstudio.com/docs/copilot/chat/agent-skills)" ++ nl ++
       "- [awesome-copilot](https://github.com/github/awesome-copilot)" ++ nl)%string in
  {| relativePath := ".github/AGENT-SKILLS.md"; content := content |}.

(** The file of one skill: [.github/skills/<id>/SKILL.md]. *)
Definition skillFile (skill : SkillEntry) : GeneratedFile :=
  {| relativePath := (".github/skills/" ++ Skill.id skill ++ "/SKILL.md")%string;
     content := buildSkillMd skill |}.

(** The file of one agent: [.github/agents/<id>.agent.md]. *)
Definition agentFile (agent : AgentEntry) : GeneratedFile :=
  {| relativePath := (".github/agents/" ++ Agent.id agent ++ ".agent.md")%string;
     content := buildAgentMd agent |}.

(** The request [generateAgentSkills] hands to [recommendAgentSkills]. *)
Definition generatorRequest (params : Params.WorkspaceInitParams)
    (options : option Generate.Options) : Options :=
  {| projectType := Some (orDefault "other" (Params.projectType params));
     techStack := Some (orDefault [] (Params.techStack params));
     userIntent :=
       Some (orDefault (Params.purpose params)
                       (optionalProperty Generate.userIntent options));
     maxAgents := Some (orDefault 8 (optionalProperty Generate.maxAgents options));
     maxSkills := Some (orDefault 12 (optionalProperty Generate.maxSkills options)) |}.

(** Generate agent skills files based on project type and tech stack. *)
Definition generateAgentSkills (params : Params.WorkspaceInitParams)
    (options : option Generate.Options) : list GeneratedFile :=
  let files : list GeneratedFile := [] in
  (* Get recommendation *)
  let r := recommendAgentSkills (generatorRequest params options) in
  (* Generate SKILL.md files *)
  let files := fold_left (fun files skill => files ++ [skillFile skill])
                         (skills r) files in
  (* Generate .agent.md files *)
  let files := fold_left (fun files agent => files ++ [agentFile agent])
                         (agents r) files in
  (* Generate index/registry file *)
  files ++ [generateSkillsIndex (agents r) (skills r) params].

(** Generate specific skills by IDs. *)
Definition generateSelectedSkills (skillEntries : list SkillEntry)
    (agentEntries : list AgentEntry) : list GeneratedFile :=
  let files : list GeneratedFile := [] in
  let files := fold_left (fun files skill => files ++ [skillFile skill])
                         skillEntries files in
  let files := fold_left (fun files agent => files ++ [agentFile agent])
                         agentEntries files in
  files.

(** ** Vocabulary of the specification *)

Section Signals.
Context {E : Type} `{CatalogEntry E}.

(** The score [recommendAgentSkills] computes for [e] on the request
    [options]. *)
Definition entryScore (options : Options) (e : E) : Z :=
  scoreEntry (projectTypeOf options) (map toLowerCase (techStackOf options))
             (toLowerCase (userIntentOf options)) e.

(** The entries that pass the filter, in the order of the sort. *)
Definition rankedEntries (options : Options) (registry : list E) : list E :=
  Array_sort (fun a b => entryScore options b - entryScore options a)
             (filter (fun e => 0 <? entryScore options e) registry).

(** Signal 4: the bonus of the priority tier. *)
Definition priorityBonus (e : E) : Z := (4 - entryPriority e) * 2.

(** The entry applies to all project types. *)
Definition isWildcard (e : E) : bool :=
  Array_includes (entryRelevantProjectTypes e) "*".

(** Signal 1: project-type match. *)
Definition projectTypeSignal (projectType : string) (e : E) : Z :=
  if isWildcard e || Array_includes (entryRelevantProjectTypes e) projectType
  then 10 else 0.

(** Signal 2: 5 for each tech keyword that matches some stack item. *)
Definition techSignal (techLower : list string) (e : E) : Z :=
  5 * Z.of_nat (List.length (filter (techKeywordMatches techLower)
                                    (entryTechKeywords e))).

(** Signal 3: 3 for each tag that occurs in the lower-cased intent. *)
Definition intentSignal (intentLower : string) (e : E) : Z :=
  3 * Z.of_nat (List.length (filter (includes intentLower) (entryTags e))).

(** The score left to an entry that matches neither the project type by
    name, nor a stack item, nor the intent. *)
Definition wildcardAndPriority (e : E) : Z :=
  (if isWildcard e then 10 else 0) + priorityBonus e.

(** The query occurs, letter case apart, in the name, the description, a
    tag or a category of the entry. *)
Definition Mentions (query : string) (e : E) : Prop :=
  let q := toLowerCase query in
  Substring q (toLowerCase (entryName e))
  \/ Substring q (toLowerCase (entryDescription e))
  \/ (exists t, In t (entryTags e) /\ Substring q (toLowerCase t))
  \/ (exists c, In c (entryCategories e) /\ Substring q (toLowerCase c)).
End Signals.

(** A stack item and a tech keyword match: with both lower-cased, one is a
    substring of the other. *)
Definition TechMatch (item keyword : string) : Prop :=
  Substring (toLowerCase keyword) (toLowerCase item)
  \/ Substring (toLowerCase item) (toLowerCase keyword).

(** [a] stands somewhere before [b] in [l]. *)
Definition precedes {A : Type} (a b : A) (l : list A) : Prop :=
  exists l1 l2 l3, l = l1 ++ a :: l2 ++ b :: l3.

(** [a] may stand before [b] in a list sorted by descending [key]. *)
Definition keyDescending {A : Type} (key : A -> Z) (a b : A) : Prop :=
  key b <= key a.

(** Decides whether [key] never goes up from an element of [l] to the
    next. *)
Fixpoint descendingb {A : Type} (key : A -> Z) (l : list A) : bool :=
  match l with
  | [] => true
  | a :: l' =>
      match l' with
      | [] => true
      | b :: _ => (key b <=? key a) && descendingb key l'
      end
  end.

(** The strings of [l] are pairwise different. *)
Fixpoint distinct (l : list string) : bool :=
  match l with
  | [] => true
  | x :: l' => negb (Array_includes l' x) && distinct l'
  end.

(** A request that leaves every property to its default. *)
Definition defaultRequest : Options :=
  {| projectType := None;
     techStack := None;
     userIntent := None;
     maxAgents := None;
     maxSkills := None |}.

(** Scenario 2 of the specification. *)
Definition unknownTypeRequest : Options :=
  {| projectType := Some "unknown-type";
     techStack := Some [];
     userIntent := Some "";
     maxAgents := Some 100;
     maxSkills := Some 100 |}.

(** The request [o] with another cap on the agents. *)
Definition withMaxAgents (n : Z) (o : Options) : Options :=
  {| projectType := projectType o;
     techStack := techStack o;
     userIntent := userIntent o;
     maxAgents := Some n;
     maxSkills := maxSkills o |}.

(** The request [o] with another cap on the skills. *)
Definition withMaxSkills (n : Z) (o : Options) : Options :=
  {| projectType := projectType o;
     techStack := techStack o;
     userIntent := userIntent o;
     maxAgents := maxAgents o;
     maxSkills := Some n |}.

(** The request [o] with another tech stack. *)
Definition withTechStack (stack : list string) (o : Options) : Options :=
  {| projectType := projectType o;
     techStack := Some stack;
     userIntent := userIntent o;
     maxAgents := maxAgents o;
     maxSkills := maxSkills o |}.

(** The request [o] with another intent. *)
Definition withUserIntent (intent : string) (o : Options) : Options :=
  {| projectType := projectType o;
     techStack := techStack o;
     userIntent := Some intent;
     maxAgents := maxAgents o;
     maxSkills := maxSkills o |}.

(** The skill [s] with other categories. *)
Definition skillWithCategories (cats : list string) (s : SkillEntry) : SkillEntry :=
  {| Skill.id := Skill.id s;
     Skill.name := Skill.name s;
     Skill.description := Skill.description s;
     Skill.categories := cats;
     Skill.tags := Skill.tags s;
     Skill.relevantProjectTypes := Skill.relevantProjectTypes s;
     Skill.techKeywords := Skill.techKeywords s;
     Skill.hasResources := Skill.hasResources s;
     Skill.priority := Skill.priority s |}.

(** The agent [a] with other categories. *)
Definition agentWithCategories (cats : list string) (a : AgentEntry) : AgentEntry :=
  {| Agent.id := Agent.id a;
     Agent.name := Agent.name a;
     Agent.description := Agent.description a;
     Agent.categories := cats;
     Agent.tags := Agent.tags a;
     Agent.relevantProjectTypes := Agent.relevantProjectTypes a;
     Agent.techKeywords := Agent.techKeywords a;
     Agent.priority := Agent.priority a |}.

(** The string [s] ends with [t]. *)
Definition EndsWith (t s : string) : Prop :=
  exists h : string, s = (h ++ t)%string.

(** The length [slice(0, n)] leaves of an array of length [len]. *)
Definition sliceLength (n len : Z) : Z :=
  if n <? 0 then Z.max (len + n) 0 else Z.min n len.

(** * Properties *)

(** ** Facts about strings *)

Lemma prefix_split (q s : string) :
  String.prefix q s = true <-> exists r, s = (q ++ r)%string.
Proof.
  revert s. induction q as [|c q IH]; intros s; simpl.
  - split; [intros _; exists s; reflexivity | intros _; destruct s; reflexivity].
  - destruct s as [|d s].
    + split; [discriminate | intros [r Hr]; discriminate].
    + simpl. destruct (ascii_dec c d) as [->|Hne].
      * rewrite IH. split; intros [r Hr]; exists r; congruence.
      * split; [discriminate | intros [r Hr]; congruence].
Qed.

Lemma includes_Substring (s q : string) :
  includes s q = true <-> Substring q s.
Proof.
  unfold Substring. induction s as [|c s IH]; cbn [includes].
  - rewrite orb_false_r, prefix_split. split.
    + intros [r Hr]. exists EmptyString, r. exact Hr.
    + intros [p [r Hr]]. destruct p; simpl in Hr; [eauto | discriminate].
  - rewrite orb_true_iff, prefix_split, IH. split.
    + intros [[r Hr] | [p [r Hr]]].
      * exists EmptyString, r. exact Hr.
      * exists (String c p), r. simpl. congruence.
    + intros [p [r Hr]]. destruct p as [|d p]; simpl in Hr.
      * left. eauto.
      * right. exists p, r. congruence.
Qed.

Lemma includes_empty (s : string) : includes s EmptyString = true.
Proof. destruct s; reflexivity. Qed.

Lemma toLowerCase_app (a b : string) :
  toLowerCase (a ++ b) = (toLowerCase a ++ toLowerCase b)%string.
Proof. induction a as [|c a IH]; simpl; [reflexivity | now rewrite IH]. Qed.

Lemma lowerAscii_idem (c : ascii) : lowerAscii (lowerAscii c) = lowerAscii c.
Proof.
  destruct c as [[] [] [] [] [] [] [] []]; reflexivity.
Qed.

Lemma toLowerCase_idem (s : string) :
  toLowerCase (toLowerCase s) = toLowerCase s.
Proof.
  induction s as [|c s IH]; simpl; [reflexivity|].
  now rewrite lowerAscii_idem, IH.
Qed.

Lemma Substring_toLowerCase (q s : string) :
  Substring q s -> Substring (toLowerCase q) (toLowerCase s).
Proof.
  intros [p [r ->]]. exists (toLowerCase p), (toLowerCase r).
  now rewrite !toLowerCase_app.
Qed.

Lemma Array_includes_In (arr : list string) (x : string) :
  Array_includes arr x = true <-> In x arr.
Proof.
  unfold Array_includes. rewrite existsb_exists. split.
  - intros [y [Hy Heq]]. apply String.eqb_eq in Heq. now subst.
  - intros Hx. exists x. split; [assumption | apply String.eqb_refl].
Qed.

(** ** The scorer *)

Lemma fold_left_cond_add {A : Type} (p : A -> bool) (k : Z) (l : list A) (acc : Z) :
  fold_left (fun score x => if p x then score + k else score) l acc
  = acc + k * Z.of_nat (List.length (filter p l)).
Proof.
  revert acc. induction l as [|x l IH]; intros acc; simpl.
  - lia.
  - rewrite IH. destruct (p x); simpl List.length; lia.
Qed.

Section ScorerFacts.
Context {E : Type} `{CatalogEntry E}.

(** The score is the sum of the four signals. *)
Lemma scoreEntry_signals (projectType : string) (techLower : list string)
    (intentLower : string) (e : E) :
  scoreEntry projectType techLower intentLower e
  = projectTypeSignal projectType e + techSignal techLower e
    + intentSignal intentLower e + priorityBonus e.
Proof.
  unfold scoreEntry, projectTypeSignal, techSignal, intentSignal,
    priorityBonus, isWildcard.
  rewrite !fold_left_cond_add.
  destruct (Array_includes (entryRelevantProjectTypes e) "*"
            || Array_includes (entryRelevantProjectTypes e) projectType);
    lia.
Qed.

Lemma projectTypeSignal_nonneg (projectType : string) (e : E) :
  0 <= projectTypeSignal projectType e.
Proof.
  unfold projectTypeSignal.
  destruct (isWildcard e || _); lia.
Qed.

Lemma techSignal_nonneg (techLower : list string) (e : E) :
  0 <= techSignal techLower e.
Proof. unfold techSignal. lia. Qed.

Lemma intentSignal_nonneg (intentLower : string) (e : E) :
  0 <= intentSignal intentLower e.
Proof. unfold intentSignal. lia. Qed.

Lemma scoreEntry_floor (projectType : string) (techLower : list string)
    (intentLower : string) (e : E) :
  priorityBonus e <= scoreEntry projectType techLower intentLower e.
Proof.
  rewrite scoreEntry_signals.
  pose proof (projectTypeSignal_nonneg projectType e).
  pose proof (techSignal_nonneg techLower e).
  pose proof (intentSignal_nonneg intentLower e).
  lia.
Qed.

(** An entry of a tier between 1 and 3 scores at least 2. *)
Lemma scoreEntry_positive (projectType : string) (techLower : list string)
    (intentLower : string) (e : E) :
  entryPriority e <= 3 ->
  2 <= scoreEntry projectType techLower intentLower e.
Proof.
  intros Hp.
  pose proof (scoreEntry_floor projectType techLower intentLower e) as Hf.
  unfold priorityBonus in Hf. lia.
Qed.
End ScorerFacts.

Lemma techKeywordMatches_TechMatch (techStack : list string) (keyword : string) :
  techKeywordMatches (map toLowerCase techStack) keyword = true
  <-> exists item, In item techStack /\ TechMatch item keyword.
Proof.
  unfold techKeywordMatches, TechMatch. rewrite existsb_exists. split.
  - intros [t [Ht Hm]]. apply in_map_iff in Ht as [item [<- Hitem]].
    exists item. split; [assumption|].
    now rewrite orb_true_iff, !includes_Substring in Hm.
  - intros [item [Hitem Hm]]. exists (toLowerCase item). split.
    + now apply in_map.
    + now rewrite orb_true_iff, !includes_Substring.
Qed.

(** ** The sort *)

Section SortFacts.
Context {A : Type} (comparefn : A -> A -> Z).

Lemma sortInsert_Permutation (x : A) (l : list A) :
  Permutation (sortInsert comparefn x l) (x :: l).
Proof.
  induction l as [|y l IH]; simpl.
  - apply Permutation_refl.
  - destruct (0 <? comparefn x y).
    + eapply perm_trans; [apply perm_skip, IH | apply perm_swap].
    + apply Permutation_refl.
Qed.

Lemma Array_sort_Permutation (l : list A) :
  Permutation (Array_sort comparefn l) l.
Proof.
  induction l as [|x l IH]; simpl.
  - apply perm_nil.
  - eapply perm_trans; [apply sortInsert_Permutation | apply perm_skip, IH].
Qed.

Lemma Array_sort_In (x : A) (l : list A) :
  In x (Array_sort comparefn l) <-> In x l.
Proof.
  split; apply Permutation_in;
    [|apply Permutation_sym]; apply Array_sort_Permutation.
Qed.

(** Stability: elements that the comparator does not put one after the
    other keep their order. *)
Section Stable.
Variable P : A -> bool.
Hypothesis P_tie :
  forall a b, P a = true -> P b = true -> comparefn a b <= 0.

Lemma sortInsert_filter (x : A) (l : list A) :
  filter P (sortInsert comparefn x l) = filter P (x :: l).
Proof.
  induction l as [|y l IH]; [reflexivity|].
  cbn [sortInsert]. destruct (0 <? comparefn x y) eqn:Hc; [|reflexivity].
  apply Z.ltb_lt in Hc.
  cbn [filter] in *. rewrite IH.
  destruct (P x) eqn:Hx, (P y) eqn:Hy; try reflexivity.
  specialize (P_tie x y Hx Hy). lia.
Qed.

Lemma Array_sort_filter (l : list A) :
  filter P (Array_sort comparefn l) = filter P l.
Proof.
  induction l as [|x l IH]; [reflexivity|].
  cbn [Array_sort fold_right]. rewrite sortInsert_filter.
  cbn [filter]. fold (Array_sort comparefn l). now rewrite IH.
Qed.
End Stable.

(** Order: on a consistent comparator the result is sorted. *)
Section Consistent.
Hypothesis comparefn_anti :
  forall x y, 0 < comparefn x y -> comparefn y x <= 0.
Hypothesis comparefn_trans :
  forall x y z, comparefn x y <= 0 -> comparefn y z <= 0 -> comparefn x z <= 0.

Lemma sortInsert_sorted (x : A) (l : list A) :
  StronglySorted (fun a b => comparefn a b <= 0) l ->
  StronglySorted (fun a b => comparefn a b <= 0) (sortInsert comparefn x l).
Proof.
  induction l as [|y l IH]; intros Hs; simpl.
  - constructor; constructor.
  - apply StronglySorted_inv in Hs as [Hl Hy].
    destruct (0 <? comparefn x y) eqn:Hc.
    + apply Z.ltb_lt in Hc. constructor; [now apply IH|].
      apply Forall_forall. intros z Hz.
      apply (Permutation_in _ (sortInsert_Permutation x l)) in Hz.
      destruct Hz as [<-|Hz]; [now apply comparefn_anti|].
      rewrite Forall_forall in Hy. now apply Hy.
    + apply Z.ltb_ge in Hc. constructor.
      * now constructor.
      * constructor; [assumption|].
        eapply Forall_impl; [|exact Hy].
        intros z Hz. now apply comparefn_trans with y.
Qed.

Lemma Array_sort_sorted (l : list A) :
  StronglySorted (fun a b => comparefn a b <= 0) (Array_sort comparefn l).
Proof.
  induction l as [|x l IH]; simpl.
  - constructor.
  - now apply sortInsert_sorted.
Qed.
End Consistent.
End SortFacts.

Lemma StronglySorted_impl_in {A : Type} (R R' : A -> A -> Prop) (l : list A) :
  (forall a b, In a l -> In b l -> R a b -> R' a b) ->
  StronglySorted R l -> StronglySorted R' l.
Proof.
  intros Himp Hs. induction Hs as [|x l Hs IH Hall].
  - constructor.
  - constructor.
    + apply IH. intros a b Ha Hb. apply Himp; now right.
    + rewrite Forall_forall in *. intros z Hz.
      apply Himp; [now left | now right | now apply Hall].
Qed.

(** Sorting commutes with a map that respects the comparators. *)
Lemma Array_sort_map {A B : Type} (f : A -> B) (cmpA : A -> A -> Z)
    (cmpB : B -> B -> Z) (l : list A) :
  (forall a b, cmpB (f a) (f b) = cmpA a b) ->
  Array_sort cmpB (map f l) = map f (Array_sort cmpA l).
Proof.
  intros Hf. induction l as [|x l IH]; [reflexivity|].
  cbn [map Array_sort fold_right].
  fold (Array_sort cmpB (map f l)). fold (Array_sort cmpA l).
  rewrite IH. generalize (Array_sort cmpA l) as m.
  induction m as [|y m IHm]; [reflexivity|].
  cbn [map sortInsert]. rewrite Hf.
  destruct (0 <? cmpA x y); cbn [map]; [now rewrite IHm | reflexivity].
Qed.

Section SortByKey.
Context {A : Type} (key : A -> Z).

Lemma Array_sort_key_sorted (l : list A) :
  StronglySorted (keyDescending key) (Array_sort (fun a b => key b - key a) l).
Proof.
  apply StronglySorted_impl_in
    with (R := fun a b => (fun a b => key b - key a) a b <= 0).
  - unfold keyDescending. intros; lia.
  - apply Array_sort_sorted; intros; lia.
Qed.

Lemma Array_sort_key_stable (s : Z) (l : list A) :
  filter (fun x => key x =? s) (Array_sort (fun a b => key b - key a) l)
  = filter (fun x => key x =? s) l.
Proof.
  apply Array_sort_filter. intros a b Ha Hb.
  apply Z.eqb_eq in Ha, Hb. lia.
Qed.

(** A list sorted by descending key is determined by the order inside
    each class of equal keys. *)
Lemma sorted_stable_unique (l1 l2 : list A) :
  StronglySorted (keyDescending key) l1 ->
  StronglySorted (keyDescending key) l2 ->
  (forall s, filter (fun x => key x =? s) l1 = filter (fun x => key x =? s) l2) ->
  l1 = l2.
Proof.
  revert l2. induction l1 as [|x l1 IH]; intros l2 H1 H2 Hf.
  - destruct l2 as [|y l2]; [reflexivity|].
    specialize (Hf (key y)). cbn [filter] in Hf.
    rewrite Z.eqb_refl in Hf. discriminate.
  - destruct l2 as [|y l2].
    + specialize (Hf (key x)). cbn [filter] in Hf.
      rewrite Z.eqb_refl in Hf. discriminate.
    + apply StronglySorted_inv in H1 as [H1 Hx].
      apply StronglySorted_inv in H2 as [H2 Hy].
      rewrite Forall_forall in Hx, Hy. unfold keyDescending in Hx, Hy.
      assert (Hxy : key x <= key y).
      { assert (Hin : In x (filter (fun z => key z =? key x) (y :: l2))).
        { rewrite <- Hf. cbn [filter]. rewrite Z.eqb_refl. now left. }
        apply filter_In in Hin as [[<-|Hin] _]; [lia | now apply Hy]. }
      assert (Hyx : key y <= key x).
      { assert (Hin : In y (filter (fun z => key z =? key y) (x :: l1))).
        { rewrite Hf. cbn [filter]. rewrite Z.eqb_refl. now left. }
        apply filter_In in Hin as [[<-|Hin] _]; [lia | now apply Hx]. }
      assert (Hk : key x = key y) by lia.
      pose proof (Hf (key x)) as Hh. cbn [filter] in Hh.
      rewrite <- Hk, Z.eqb_refl in Hh. injection Hh as -> _.
      f_equal. apply IH; try assumption.
      intros s. specialize (Hf s). cbn [filter] in Hf.
      destruct (key y =? s); [now injection Hf | exact Hf].
Qed.

(** Whatever stable algorithm the engine runs, the result of sorting by
    descending key is the one of [Array_sort]. *)
Lemma Array_sort_unique (l sorted : list A) :
  StronglySorted (keyDescending key) sorted ->
  (forall s, filter (fun x => key x =? s) sorted = filter (fun x => key x =? s) l) ->
  sorted = Array_sort (fun a b => key b - key a) l.
Proof.
  intros Hs Hf. apply sorted_stable_unique; try assumption.
  - apply Array_sort_key_sorted.
  - intros s. now rewrite Array_sort_key_stable.
Qed.
End SortByKey.

(** ** Relative order in a list *)

Section Precedes.
Context {A : Type}.
Implicit Types (a b x : A) (l m : list A).

Lemma precedes_head a b l : In b l -> precedes a b (a :: l).
Proof.
  intros Hb. apply in_split in Hb as [l2 [l3 ->]].
  now exists [], l2, l3.
Qed.

Lemma precedes_cons a b x l : precedes a b l -> precedes a b (x :: l).
Proof. intros [l1 [l2 [l3 ->]]]. now exists (x :: l1), l2, l3. Qed.

Lemma precedes_cons_inv a b x l :
  precedes a b (x :: l) -> (x = a /\ In b l) \/ precedes a b l.
Proof.
  intros [l1 [l2 [l3 Hl]]]. destruct l1 as [|y l1]; simpl in Hl.
  - injection Hl as -> ->. left. split; [reflexivity|].
    apply in_or_app. right. now left.
  - injection Hl as -> ->. right. now exists l1, l2, l3.
Qed.

Lemma precedes_In a b l : precedes a b l -> In a l /\ In b l.
Proof.
  intros [l1 [l2 [l3 ->]]]. split.
  - apply in_or_app. right. now left.
  - apply in_or_app. right. right. apply in_or_app. right. now left.
Qed.

Lemma precedes_app_l a b l m : precedes a b l -> precedes a b (l ++ m).
Proof.
  intros [l1 [l2 [l3 ->]]]. exists l1, l2, (l3 ++ m).
  now rewrite <- !app_assoc, <- !app_comm_cons, <- app_assoc.
Qed.

Lemma precedes_firstn a b (n : nat) l :
  precedes a b (firstn n l) -> precedes a b l.
Proof.
  intros Hp. rewrite <- (firstn_skipn n l). now apply precedes_app_l.
Qed.

Lemma precedes_filter (P : A -> bool) a b l :
  P a = true -> P b = true -> precedes a b l -> precedes a b (filter P l).
Proof.
  intros Ha Hb [l1 [l2 [l3 ->]]].
  exists (filter P l1), (filter P l2), (filter P l3).
  rewrite filter_app. cbn [filter]. rewrite Ha, filter_app. cbn [filter].
  now rewrite Hb.
Qed.

Lemma precedes_filter_inv (P : A -> bool) a b l :
  precedes a b (filter P l) -> precedes a b l.
Proof.
  induction l as [|x l IH]; cbn [filter]; intros Hp.
  - destruct Hp as [[|? ?] [? [? Hl]]]; discriminate.
  - destruct (P x).
    + apply precedes_cons_inv in Hp as [[-> Hb] | Hp].
      * apply precedes_head. now apply filter_In in Hb as [Hb _].
      * now apply precedes_cons, IH.
    + now apply precedes_cons, IH.
Qed.

Lemma precedes_total a b l :
  In a l -> In b l -> a <> b -> precedes a b l \/ precedes b a l.
Proof.
  induction l as [|x l IH]; intros Ha Hb Hne; [contradiction|].
  destruct Ha as [->|Ha], Hb as [->|Hb].
  - contradiction.
  - left. now apply precedes_head.
  - right. now apply precedes_head.
  - destruct (IH Ha Hb Hne); [left | right]; now apply precedes_cons.
Qed.

Lemma precedes_NoDup_asym a b l :
  NoDup l -> precedes a b l -> precedes b a l -> False.
Proof.
  induction 1 as [|x l Hx Hnd IH]; intros Hab Hba.
  - destruct Hab as [[|? ?] [? [? Hl]]]; discriminate.
  - apply precedes_cons_inv in Hab as [[-> Hb] | Hab];
      apply precedes_cons_inv in Hba as [[Heq Ha] | Hba].
    + now apply Hx.
    + apply Hx. now apply precedes_In in Hba as [_ Ha].
    + subst x. apply Hx. now apply precedes_In in Hab as [_ Hb].
    + now apply IH.
Qed.

Lemma In_firstn x (n : nat) l : In x (firstn n l) -> In x l.
Proof.
  intros Hx. rewrite <- (firstn_skipn n l). apply in_or_app. now left.
Qed.

(** A filtered prefix is a prefix of the filtered list. *)
Lemma filter_firstn (P : A -> bool) (n : nat) l :
  exists rest, filter P l = filter P (firstn n l) ++ rest.
Proof.
  exists (filter P (skipn n l)).
  now rewrite <- filter_app, firstn_skipn.
Qed.
End Precedes.

Lemma distinct_NoDup (l : list string) : distinct l = true -> NoDup l.
Proof.
  induction l as [|x l IH]; simpl; intros Hd.
  - constructor.
  - apply andb_true_iff in Hd as [Hx Hl]. constructor; [|now apply IH].
    rewrite <- Array_includes_In. now destruct (Array_includes l x).
Qed.

(** ** The ranker *)

Lemma slice0_map {A B : Type} (f : A -> B) (n : Z) (l : list A) :
  slice0 n (map f l) = map f (slice0 n l).
Proof. unfold slice0. now rewrite length_map, firstn_map. Qed.

Lemma slice0_firstn {A : Type} (n : Z) (l : list A) :
  exists k : nat, slice0 n l = firstn k l.
Proof. unfold slice0. eauto. Qed.

Lemma slice0_length {A : Type} (n : Z) (l : list A) :
  0 <= n -> List.length (slice0 n l) = Nat.min (List.length l) (Z.to_nat n).
Proof.
  intros Hn. unfold slice0. rewrite length_firstn.
  destruct (n <? 0) eqn:Hneg; [apply Z.ltb_lt in Hneg; lia|]. lia.
Qed.

Section RankFacts.
Context {E : Type} `{CatalogEntry E}.
Variable options : Options.
Variable registry : list E.

(** The ranking, read on the entries themselves. *)
Lemma rank_scoreAll (max : Z) :
  rank max (scoreAll options registry)
  = slice0 max (rankedEntries options registry).
Proof.
  unfold rankedEntries.
  unfold rank, scoreAll, keepPositive, sortByScore.
  set (f := fun e : E => (e, _)).
  rewrite filter_map_swap.
  rewrite (Array_sort_map f
             (fun a b => entryScore options b - entryScore options a))
    by reflexivity.
  rewrite slice0_map, map_map. cbn [f fst]. now rewrite map_id.
Qed.

Lemma rank_firstn (max : Z) :
  exists k : nat,
    rank max (scoreAll options registry)
    = firstn k (rankedEntries options registry).
Proof. rewrite rank_scoreAll. apply slice0_firstn. Qed.

Lemma rank_incl (max : Z) : incl (rank max (scoreAll options registry)) registry.
Proof.
  destruct (rank_firstn max) as [k ->]. intros e He.
  apply In_firstn, Array_sort_In, filter_In in He. tauto.
Qed.

Lemma rank_NoDup (max : Z) :
  NoDup registry -> NoDup (rank max (scoreAll options registry)).
Proof.
  intros Hnd. destruct (rank_firstn max) as [k ->].
  apply NoDup_app_remove_r with (l' := skipn k (rankedEntries options registry)).
  rewrite firstn_skipn.
  eapply Permutation_NoDup;
    [apply Permutation_sym, Array_sort_Permutation|].
  now apply NoDup_filter.
Qed.

Lemma rank_sorted (max : Z) :
  StronglySorted (keyDescending (entryScore options))
                 (rank max (scoreAll options registry)).
Proof.
  destruct (rank_firstn max) as [k ->].
  pose proof (Array_sort_key_sorted (entryScore options)
                (filter (fun e => 0 <? entryScore options e) registry)) as Hs.
  fold (rankedEntries options registry) in Hs.
  rewrite <- (firstn_skipn k (rankedEntries options registry)) in Hs.
  revert Hs.
  generalize (skipn k (rankedEntries options registry)),
    (firstn k (rankedEntries options registry)).
  intros l2 l1. induction l1 as [|x l1 IH]; cbn [app]; intros Hs.
  - constructor.
  - apply StronglySorted_inv in Hs as [Hs Hx]. constructor; [now apply IH|].
    apply Forall_app in Hx. tauto.
Qed.

(** Among the entries of one score the ranking keeps the order of the
    registry. *)
Lemma rank_precedes (max : Z) (a b : E) :
  entryScore options a = entryScore options b ->
  precedes a b (rank max (scoreAll options registry)) ->
  precedes a b registry.
Proof.
  intros Hab. destruct (rank_firstn max) as [k ->].
  intros Hp. apply precedes_firstn in Hp.
  apply (precedes_filter
           (fun e => entryScore options e =? entryScore options a)) in Hp.
  - unfold rankedEntries in Hp. rewrite Array_sort_key_stable in Hp.
    now apply precedes_filter_inv, precedes_filter_inv in Hp.
  - apply Z.eqb_refl.
  - apply Z.eqb_eq. auto.
Qed.

Lemma rank_stable_prefix (max s : Z) :
  exists rest,
    filter (fun e => entryScore options e =? s)
           (filter (fun e => 0 <? entryScore options e) registry)
    = filter (fun e => entryScore options e =? s)
             (rank max (scoreAll options registry))
      ++ rest.
Proof.
  destruct (rank_firstn max) as [k ->]. unfold rankedEntries.
  rewrite <- (Array_sort_key_stable (entryScore options) s).
  apply filter_firstn.
Qed.

(** When every entry is of tier 1, 2 or 3. *)
Section Tiers.
Hypothesis tiers : Forall (fun e => entryPriority e <= 3) registry.

Lemma score_positive (e : E) : In e registry -> 2 <= entryScore options e.
Proof.
  intros He. rewrite Forall_forall in tiers.
  apply scoreEntry_positive. now apply tiers.
Qed.

Lemma filter_positive_all :
  filter (fun e => 0 <? entryScore options e) registry = registry.
Proof.
  rewrite (filter_ext_in _ (fun _ => true)).
  - clear. induction registry as [|x l IH]; simpl; [|rewrite IH]; reflexivity.
  - intros e He. apply Z.ltb_lt. pose proof (score_positive e He). lia.
Qed.

Lemma keepPositive_all :
  keepPositive (scoreAll options registry) = scoreAll options registry.
Proof.
  unfold keepPositive, scoreAll. rewrite filter_map_swap. f_equal.
  exact filter_positive_all.
Qed.

Lemma rank_all (max : Z) :
  rank max (scoreAll options registry)
  = slice0 max (Array_sort (fun a b => entryScore options b - entryScore options a)
                           registry).
Proof.
  rewrite rank_scoreAll. unfold rankedEntries.
  now rewrite filter_positive_all.
Qed.

Lemma rank_length (max : Z) :
  0 <= max ->
  List.length (rank max (scoreAll options registry))
  = Nat.min (List.length registry) (Z.to_nat max).
Proof.
  intros Hmax. rewrite rank_all, slice0_length by assumption.
  now rewrite (Permutation_length (Array_sort_Permutation _ registry)).
Qed.

Lemma rank_everything (max : Z) :
  Z.of_nat (List.length registry) <= max ->
  rank max (scoreAll options registry)
  = Array_sort (fun a b => entryScore options b - entryScore options a) registry.
Proof.
  intros Hmax. rewrite rank_all. unfold slice0.
  rewrite (Permutation_length (Array_sort_Permutation _ registry)).
  destruct (max <? 0) eqn:Hneg; [apply Z.ltb_lt in Hneg; lia|].
  apply firstn_all2.
  rewrite (Permutation_length (Array_sort_Permutation _ registry)). lia.
Qed.
End Tiers.
End RankFacts.

(** ** The catalogs *)

(** A property of every entry of a catalog, settled by running its test. *)
Lemma Forall_by_test {A : Type} (test : A -> bool) (P : A -> Prop) (l : list A) :
  (forall x, test x = true -> P x) -> forallb test l = true -> Forall P l.
Proof.
  intros Htest Hall. apply Forall_forall. intros x Hx.
  apply Htest. rewrite forallb_forall in Hall. now apply Hall.
Qed.

Ltac by_test t :=
  apply Forall_by_test with (test := t); [|vm_compute; reflexivity].

Lemma recommend_agents (options : Options) :
  agents (recommendAgentSkills options)
  = rank (maxAgentsOf options) (scoreAll options AGENT_REGISTRY).
Proof. reflexivity. Qed.

Lemma recommend_skills (options : Options) :
  skills (recommendAgentSkills options)
  = rank (maxSkillsOf options) (scoreAll options SKILL_REGISTRY).
Proof. reflexivity. Qed.

Lemma agent_priorities :
  Forall (fun e => Agent.priority e = 1 \/ Agent.priority e = 2
                   \/ Agent.priority e = 3) AGENT_REGISTRY.
Proof.
  by_test (fun e => (Agent.priority e =? 1) || (Agent.priority e =? 2)
                    || (Agent.priority e =? 3)).
  intros e He. rewrite !orb_true_iff, !Z.eqb_eq in He. tauto.
Qed.

Lemma skill_priorities :
  Forall (fun e => Skill.priority e = 1 \/ Skill.priority e = 2
                   \/ Skill.priority e = 3) SKILL_REGISTRY.
Proof.
  by_test (fun e => (Skill.priority e =? 1) || (Skill.priority e =? 2)
                    || (Skill.priority e =? 3)).
  intros e He. rewrite !orb_true_iff, !Z.eqb_eq in He. tauto.
Qed.

(** What the type checker grants: the categories of an entry are literals
    of its union type; and no entry is without a category. *)
Lemma agent_categories_typed :
  Forall (fun e => Agent.categories e <> [] /\ incl (Agent.categories e) AgentCategory)
         AGENT_REGISTRY.
Proof.
  by_test (fun e => negb (Nat.eqb (List.length (Agent.categories e)) 0)
                    && forallb (Array_includes AgentCategory) (Agent.categories e)).
  intros e He. apply andb_true_iff in He as [Hne Hin]. split.
  - intros Hnil. rewrite Hnil in Hne. discriminate.
  - rewrite forallb_forall in Hin. intros c Hc.
    now apply Array_includes_In, Hin.
Qed.

Lemma skill_categories_typed :
  Forall (fun e => Skill.categories e <> [] /\ incl (Skill.categories e) SkillCategory)
         SKILL_REGISTRY.
Proof.
  by_test (fun e => negb (Nat.eqb (List.length (Skill.categories e)) 0)
                    && forallb (Array_includes SkillCategory) (Skill.categories e)).
  intros e He. apply andb_true_iff in He as [Hne Hin]. split.
  - intros Hnil. rewrite Hnil in Hne. discriminate.
  - rewrite forallb_forall in Hin. intros c Hc.
    now apply Array_includes_In, Hin.
Qed.

Lemma agent_tiers : Forall (fun e : AgentEntry => entryPriority e <= 3) AGENT_REGISTRY.
Proof.
  eapply Forall_impl; [|exact agent_priorities].
  cbn. intros e He. lia.
Qed.

Lemma skill_tiers : Forall (fun e : SkillEntry => entryPriority e <= 3) SKILL_REGISTRY.
Proof.
  eapply Forall_impl; [|exact skill_priorities].
  cbn. intros e He. lia.
Qed.

(** The identifiers are unique within each catalog, so no entry is
    declared twice. *)
Lemma agent_ids_distinct : NoDup (map Agent.id AGENT_REGISTRY).
Proof. apply distinct_NoDup. vm_compute. reflexivity. Qed.

Lemma skill_ids_distinct : NoDup (map Skill.id SKILL_REGISTRY).
Proof. apply distinct_NoDup. vm_compute. reflexivity. Qed.

Lemma AGENT_REGISTRY_NoDup : NoDup AGENT_REGISTRY.
Proof. exact (NoDup_map_inv _ _ agent_ids_distinct). Qed.

Lemma SKILL_REGISTRY_NoDup : NoDup SKILL_REGISTRY.
Proof. exact (NoDup_map_inv _ _ skill_ids_distinct). Qed.

(** ** The claims *)

(** C1: for every request whose caps are positive integers, the filter
    [score > 0] removes no pair of either catalog, and the two lists
    returned have [min(|AGENT_REGISTRY|, maxAgents)] and
    [min(|SKILL_REGISTRY|, maxSkills)] elements. *)
Theorem filter_removes_no_entry (options : Options) :
  0 < maxAgentsOf options ->
  0 < maxSkillsOf options ->
  keepPositive (scoreAll options AGENT_REGISTRY) = scoreAll options AGENT_REGISTRY
  /\ keepPositive (scoreAll options SKILL_REGISTRY) = scoreAll options SKILL_REGISTRY
  /\ List.length (agents (recommendAgentSkills options))
     = Nat.min (List.length AGENT_REGISTRY) (Z.to_nat (maxAgentsOf options))
  /\ List.length (skills (recommendAgentSkills options))
     = Nat.min (List.length SKILL_REGISTRY) (Z.to_nat (maxSkillsOf options)).
Proof.
  intros Ha Hs. rewrite recommend_agents, recommend_skills.
  repeat split.
  - apply keepPositive_all, agent_tiers.
  - apply keepPositive_all, skill_tiers.
  - apply rank_length; [apply agent_tiers | lia].
  - apply rank_length; [apply skill_tiers | lia].
Qed.

Lemma filter_removes_no_entry_witness :
  let options := {| projectType := Some "web-app";
                    techStack := Some ["React"; "Next.js"];
                    userIntent := Some "need frontend help";
                    maxAgents := Some 1;
                    maxSkills := Some 60 |} in
  0 < maxAgentsOf options
  /\ 0 < maxSkillsOf options
  /\ List.length (agents (recommendAgentSkills options)) = 1%nat
  /\ List.length (skills (recommendAgentSkills options)) = 42%nat.
Proof.
  intros options.
  assert (Ha : 0 < maxAgentsOf options) by (vm_compute; reflexivity).
  assert (Hs : 0 < maxSkillsOf options) by (vm_compute; reflexivity).
  destruct (filter_removes_no_entry options Ha Hs) as [_ [_ [Hla Hls]]].
  split; [exact Ha|]. split; [exact Hs|]. split.
  - rewrite Hla. reflexivity.
  - rewrite Hls. reflexivity.
Defined.

(** C2: the score of an entry is at least [(4 - priority) * 2]; every entry
    of the two catalogs has priority 1, 2 or 3, so its score is at least 2
    on every request, whatever the other three signals contribute. *)
Theorem score_priority_floor :
  (forall (E : Type) (C : CatalogEntry E) (options : Options) (e : E),
      (4 - entryPriority e) * 2 <= entryScore options e)
  /\ (forall options : Options,
        Forall (fun s : AgentEntry * Z =>
                  (Agent.priority (fst s) = 1 \/ Agent.priority (fst s) = 2
                   \/ Agent.priority (fst s) = 3)
                  /\ (4 - Agent.priority (fst s)) * 2 <= snd s
                  /\ 2 <= snd s)
               (scoreAll options AGENT_REGISTRY))
  /\ (forall options : Options,
        Forall (fun s : SkillEntry * Z =>
                  (Skill.priority (fst s) = 1 \/ Skill.priority (fst s) = 2
                   \/ Skill.priority (fst s) = 3)
                  /\ (4 - Skill.priority (fst s)) * 2 <= snd s
                  /\ 2 <= snd s)
               (scoreAll options SKILL_REGISTRY)).
Proof.
  split; [|split].
  - intros E C options e. apply scoreEntry_floor.
  - intros options. unfold scoreAll. apply Forall_map.
    eapply Forall_impl; [|exact agent_priorities].
    cbn [fst snd]. intros e He.
    pose proof (scoreEntry_floor (projectTypeOf options)
                  (map toLowerCase (techStackOf options))
                  (toLowerCase (userIntentOf options)) e) as Hf.
    unfold priorityBonus in Hf.
    change (entryPriority e) with (Agent.priority e) in Hf.
    split; [exact He|]. lia.
  - intros options. unfold scoreAll. apply Forall_map.
    eapply Forall_impl; [|exact skill_priorities].
    cbn [fst snd]. intros e He.
    pose proof (scoreEntry_floor (projectTypeOf options)
                  (map toLowerCase (techStackOf options))
                  (toLowerCase (userIntentOf options)) e) as Hf.
    unfold priorityBonus in Hf.
    change (entryPriority e) with (Skill.priority e) in Hf.
    split; [exact He|]. lia.
Qed.

Section StableRanking.
Context {E : Type} `{CatalogEntry E}.
Variables (options : Options) (registry : list E) (max : Z).
Hypothesis registry_NoDup : NoDup registry.

Lemma rank_order_iff (a b : E) :
  In a (rank max (scoreAll options registry)) ->
  In b (rank max (scoreAll options registry)) ->
  a <> b ->
  entryScore options a = entryScore options b ->
  precedes a b (rank max (scoreAll options registry)) <-> precedes a b registry.
Proof.
  intros Ha Hb Hne Heq. split.
  - now apply rank_precedes.
  - intros Hreg.
    destruct (precedes_total a b _ Ha Hb Hne) as [Hab | Hba]; [assumption|].
    apply rank_precedes in Hba; [|now symmetry].
    destruct (precedes_NoDup_asym a b registry registry_NoDup Hreg Hba).
Qed.
End StableRanking.

(** C3: the ranking is stable. Two entries of one catalog that are both
    returned and have the same score stand in the output in the order in
    which the catalog declares them. *)
Theorem ranking_is_stable (options : Options) :
  (forall a b : AgentEntry,
      In a (agents (recommendAgentSkills options)) ->
      In b (agents (recommendAgentSkills options)) ->
      a <> b ->
      entryScore options a = entryScore options b ->
      (precedes a b (agents (recommendAgentSkills options))
       <-> precedes a b AGENT_REGISTRY))
  /\ (forall a b : SkillEntry,
      In a (skills (recommendAgentSkills options)) ->
      In b (skills (recommendAgentSkills options)) ->
      a <> b ->
      entryScore options a = entryScore options b ->
      (precedes a b (skills (recommendAgentSkills options))
       <-> precedes a b SKILL_REGISTRY)).
Proof.
  rewrite recommend_agents, recommend_skills. split; intros a b.
  - apply rank_order_iff, AGENT_REGISTRY_NoDup.
  - apply rank_order_iff, SKILL_REGISTRY_NoDup.
Qed.

Lemma ranking_is_stable_witness :
  let a := {| Agent.id := "plan";
              Agent.name := "Plan Mode";
              Agent.description := "Strategic planning and architecture assistant focused on thoughtful analysis before implementation";
              Agent.categories := ["planning"];
              Agent.tags := ["planning"; "strategy"; "analysis"; "think-first"];
              Agent.relevantProjectTypes := ["*"];
              Agent.techKeywords := [];
              Agent.priority := 1 |} in
  let b := {| Agent.id := "planner";
              Agent.name := "Planner";
              Agent.description := "Task planning and breakdown assistant";
              Agent.categories := ["planning"];
              Agent.tags := ["planning"; "task-breakdown"; "workflow"];
              Agent.relevantProjectTypes := ["*"];
              Agent.techKeywords := [];
              Agent.priority := 1 |} in
  In a (agents (recommendAgentSkills defaultRequest))
  /\ In b (agents (recommendAgentSkills defaultRequest))
  /\ a <> b
  /\ entryScore defaultRequest a = entryScore defaultRequest b
  /\ precedes a b (agents (recommendAgentSkills defaultRequest)).
Proof.
  intros a b.
  assert (Ha : In a (agents (recommendAgentSkills defaultRequest)))
    by (vm_compute; left; reflexivity).
  assert (Hb : In b (agents (recommendAgentSkills defaultRequest)))
    by (vm_compute; right; left; reflexivity).
  assert (Hne : a <> b) by discriminate.
  assert (Heq : entryScore defaultRequest a = entryScore defaultRequest b)
    by (vm_compute; reflexivity).
  repeat (split; [assumption|]).
  apply (proj1 (ranking_is_stable defaultRequest) a b Ha Hb Hne Heq).
  apply precedes_head. left. reflexivity.
Defined.

(** C10: each list returned by [recommendAgentSkills] is without
    duplicates and holds only entries of its catalog. *)
Theorem recommendation_selects_from_catalog (options : Options) :
  NoDup (agents (recommendAgentSkills options))
  /\ incl (agents (recommendAgentSkills options)) AGENT_REGISTRY
  /\ NoDup (skills (recommendAgentSkills options))
  /\ incl (skills (recommendAgentSkills options)) SKILL_REGISTRY.
Proof.
  rewrite recommend_agents, recommend_skills. repeat split.
  - apply rank_NoDup, AGENT_REGISTRY_NoDup.
  - apply rank_incl.
  - apply rank_NoDup, SKILL_REGISTRY_NoDup.
  - apply rank_incl.
Qed.

(** C6: a tech keyword matches a stack item iff, with both lower-cased, one
    is a substring of the other, and the tech-stack signal is 5 times the
    number of keywords of the entry that match at least one stack item. *)
Theorem tech_stack_signal :
  (forall (techStack : list string) (keyword : string),
      techKeywordMatches (map toLowerCase techStack) keyword = true
      <-> exists item, In item techStack /\ TechMatch item keyword)
  /\ (forall (E : Type) (C : CatalogEntry E) (options : Options) (e : E),
        entryScore options e
        = projectTypeSignal (projectTypeOf options) e
          + 5 * Z.of_nat
                  (List.length
                     (filter (techKeywordMatches
                                (map toLowerCase (techStackOf options)))
                             (entryTechKeywords e)))
          + intentSignal (toLowerCase (userIntentOf options)) e
          + priorityBonus e)
  /\ (forall keyword : string,
        toLowerCase keyword = "react" -> TechMatch "React" keyword)
  /\ TechMatch "TypeScript 5" "TypeScript".
Proof.
  split; [|split; [|split]].
  - exact techKeywordMatches_TechMatch.
  - intros E C options e. apply scoreEntry_signals.
  - intros keyword Hk. left. rewrite Hk. now exists EmptyString, EmptyString.
  - left. now exists EmptyString, " 5"%string.
Qed.

(** C7: an entry whose [relevantProjectTypes] holds the wildcard gets the
    +10 of the project-type signal on every request, whatever its
    [projectType]. *)
Theorem wildcard_gets_project_type_bonus (E : Type) (C : CatalogEntry E)
    (options : Options) (e : E) :
  In "*"%string (entryRelevantProjectTypes e) ->
  projectTypeSignal (projectTypeOf options) e = 10
  /\ entryScore options e
     = 10 + techSignal (map toLowerCase (techStackOf options)) e
       + intentSignal (toLowerCase (userIntentOf options)) e
       + priorityBonus e.
Proof.
  intros Hw.
  assert (Hs : projectTypeSignal (projectTypeOf options) e = 10).
  { unfold projectTypeSignal, isWildcard.
    apply Array_includes_In in Hw. now rewrite Hw. }
  split; [exact Hs|].
  unfold entryScore. now rewrite scoreEntry_signals, Hs.
Qed.

Lemma wildcard_gets_project_type_bonus_witness :
  let e := {| Skill.id := "editorconfig";
              Skill.name := "EditorConfig";
              Skill.description := "Creates .editorconfig files for consistent coding styles";
              Skill.categories := ["project-setup"];
              Skill.tags := ["editorconfig"; "coding-style"; "consistency"];
              Skill.relevantProjectTypes := ["*"];
              Skill.techKeywords := [];
              Skill.hasResources := false;
              Skill.priority := 1 |} in
  In "*"%string (entryRelevantProjectTypes e)
  /\ entryScore unknownTypeRequest e = 16.
Proof.
  intros e.
  assert (Hw : In "*"%string (entryRelevantProjectTypes e)) by (left; reflexivity).
  split; [exact Hw|].
  rewrite (proj2 (wildcard_gets_project_type_bonus _ _ unknownTypeRequest e Hw)).
  reflexivity.
Defined.

Section SearchFacts.
Context {E : Type} `{CatalogEntry E}.

Lemma matchesQuery_empty (registry : list E) :
  filter (matchesQuery "") registry = registry.
Proof.
  induction registry as [|e l IH]; [reflexivity|].
  cbn [filter]. unfold matchesQuery at 1.
  now rewrite includes_empty, IH.
Qed.

(** What [searchAgentSkills] returns mentions the query. *)
Lemma matchesQuery_Mentions (query : string) (e : E) :
  matchesQuery (toLowerCase query) e = true -> Mentions query e.
Proof.
  unfold matchesQuery, Mentions.
  rewrite !orb_true_iff, !existsb_exists, !includes_Substring.
  intros [[[Hn | Hd] | [t [Ht Hs]]] | [c [Hc Hs]]].
  - now left.
  - right. now left.
  - right. right. left. exists t. split; [assumption|].
    apply includes_Substring, Substring_toLowerCase in Hs.
    now rewrite toLowerCase_idem in Hs.
  - right. right. right. exists c. split; [assumption|].
    apply includes_Substring, Substring_toLowerCase in Hs.
    now rewrite toLowerCase_idem in Hs.
Qed.

Lemma search_Mentions (query : string) (registry : list E) :
  Forall (Mentions query) (filter (matchesQuery (toLowerCase query)) registry).
Proof.
  apply Forall_forall. intros e He. apply filter_In in He as [_ He].
  now apply matchesQuery_Mentions.
Qed.
End SearchFacts.

(** C8: the empty query returns both catalogs whole, in declaration
    order. *)
Theorem search_empty_query_returns_catalog :
  agents (searchAgentSkills "") = AGENT_REGISTRY
  /\ skills (searchAgentSkills "") = SKILL_REGISTRY.
Proof.
  split.
  - exact (matchesQuery_empty AGENT_REGISTRY).
  - exact (matchesQuery_empty SKILL_REGISTRY).
Qed.

(** ** Scenario 2: an unknown project type *)

Lemma StronglySorted_descendingb {A : Type} (key : A -> Z) (l : list A) :
  StronglySorted (keyDescending key) l -> descendingb key l = true.
Proof.
  induction 1 as [|a l Hs IH Hall]; [reflexivity|].
  cbn [descendingb]. destruct l as [|b l]; [reflexivity|].
  apply andb_true_iff. split; [|exact IH].
  apply Forall_inv in Hall. now apply Z.leb_le.
Qed.

Lemma unknown_type_agent_scores :
  Forall (fun e : AgentEntry =>
            entryScore unknownTypeRequest e = wildcardAndPriority e)
         AGENT_REGISTRY.
Proof.
  by_test (fun e : AgentEntry =>
             entryScore unknownTypeRequest e =? wildcardAndPriority e).
  intros e. apply Z.eqb_eq.
Qed.

Lemma unknown_type_skill_scores :
  Forall (fun e : SkillEntry =>
            entryScore unknownTypeRequest e = wildcardAndPriority e)
         SKILL_REGISTRY.
Proof.
  by_test (fun e : SkillEntry =>
             entryScore unknownTypeRequest e =? wildcardAndPriority e).
  intros e. apply Z.eqb_eq.
Qed.

Section UnknownType.
Context {E : Type} `{CatalogEntry E}.
Variable registry : list E.
Hypothesis tiers : Forall (fun e => entryPriority e <= 3) registry.
Hypothesis small : Z.of_nat (List.length registry) <= 100.
Hypothesis scores :
  Forall (fun e => entryScore unknownTypeRequest e = wildcardAndPriority e)
         registry.

Lemma unknown_type_score (e : E) :
  In e registry -> entryScore unknownTypeRequest e = wildcardAndPriority e.
Proof. rewrite Forall_forall in scores. apply scores. Qed.

Lemma unknown_type_Permutation : Permutation (rank 100 (scoreAll unknownTypeRequest registry)) registry.
Proof.
  rewrite rank_everything by assumption. apply Array_sort_Permutation.
Qed.

Lemma unknown_type_sorted : StronglySorted (keyDescending wildcardAndPriority) (rank 100 (scoreAll unknownTypeRequest registry)).
Proof.
  apply StronglySorted_impl_in
    with (R := keyDescending (entryScore unknownTypeRequest)).
  - intros a b Ha Hb. unfold keyDescending.
    apply (Permutation_in _ unknown_type_Permutation) in Ha, Hb.
    now rewrite !unknown_type_score.
  - apply rank_sorted.
Qed.

Lemma unknown_type_stable (s : Z) :
  filter (fun e => wildcardAndPriority e =? s) (rank 100 (scoreAll unknownTypeRequest registry))
  = filter (fun e => wildcardAndPriority e =? s) registry.
Proof.
  rewrite (filter_ext_in (fun e => wildcardAndPriority e =? s)
             (fun e => entryScore unknownTypeRequest e =? s) (rank 100 (scoreAll unknownTypeRequest registry))).
  - rewrite rank_everything by assumption.
    rewrite Array_sort_key_stable. apply filter_ext_in.
    intros e He. now rewrite unknown_type_score.
  - intros e He. apply (Permutation_in _ unknown_type_Permutation) in He.
    now rewrite unknown_type_score.
Qed.
End UnknownType.

(** C4, as the code has it: on the request of scenario 2 the unknown
    project type is not rejected and every entry of both catalogs is
    returned once; each list is ordered by descending score, where the
    score is the priority bonus plus the 10 of the project-type signal for
    the entries that carry the wildcard, and entries of one score stand in
    declaration order. *)
Theorem unknown_type_returns_every_entry :
  let r := recommendAgentSkills unknownTypeRequest in
  Permutation (agents r) AGENT_REGISTRY
  /\ Permutation (skills r) SKILL_REGISTRY
  /\ StronglySorted (keyDescending wildcardAndPriority) (agents r)
  /\ StronglySorted (keyDescending wildcardAndPriority) (skills r)
  /\ (forall s : Z,
        filter (fun e => wildcardAndPriority e =? s) (agents r)
        = filter (fun e => wildcardAndPriority e =? s) AGENT_REGISTRY)
  /\ (forall s : Z,
        filter (fun e => wildcardAndPriority e =? s) (skills r)
        = filter (fun e => wildcardAndPriority e =? s) SKILL_REGISTRY).
Proof.
  cbv zeta. rewrite recommend_agents, recommend_skills.
  change (maxAgentsOf unknownTypeRequest) with 100.
  change (maxSkillsOf unknownTypeRequest) with 100.
  assert (Hla : Z.of_nat (List.length AGENT_REGISTRY) <= 100)
    by (vm_compute; discriminate).
  assert (Hls : Z.of_nat (List.length SKILL_REGISTRY) <= 100)
    by (vm_compute; discriminate).
  pose proof agent_tiers as Hta. pose proof skill_tiers as Hts.
  pose proof unknown_type_agent_scores as Hsa.
  pose proof unknown_type_skill_scores as Hss.
  split; [|split; [|split; [|split; [|split]]]].
  - exact (unknown_type_Permutation AGENT_REGISTRY Hta Hla).
  - exact (unknown_type_Permutation SKILL_REGISTRY Hts Hls).
  - exact (unknown_type_sorted AGENT_REGISTRY Hta Hla Hsa).
  - exact (unknown_type_sorted SKILL_REGISTRY Hts Hls Hss).
  - exact (unknown_type_stable AGENT_REGISTRY Hta Hla Hsa).
  - exact (unknown_type_stable SKILL_REGISTRY Hts Hls Hss).
Qed.

(** C4, as the specification has it, fails: the agents returned on the
    request of scenario 2 are not in the order of the priority bonus. The
    wildcard agent devils-advocate of priority 3 scores 12 and stands
    before the agent arch of priority 1, which scores 6. *)
Lemma unknown_type_not_ordered_by_priority :
  ~ StronglySorted (keyDescending priorityBonus)
      (agents (recommendAgentSkills unknownTypeRequest)).
Proof.
  intros Hs. apply StronglySorted_descendingb in Hs.
  vm_compute in Hs. discriminate.
Qed.

(** ** Scenario 3: the query docker *)

(** C5, as the code has it: the query docker returns no agent at all, and
    the two skills multi-stage-dockerfile and containerize-aspnetcore; each
    entry returned mentions docker in its name, its description, a tag or a
    category. The agent platform-sre-kubernetes names Docker in its
    [techKeywords] only, which the search does not read. *)
Theorem search_docker :
  let r := searchAgentSkills "docker" in
  agents r = []
  /\ map Skill.id (skills r) = ["multi-stage-dockerfile"; "containerize-aspnetcore"]
  /\ Forall (Mentions "docker") (agents r)
  /\ Forall (Mentions "docker") (skills r)
  /\ Forall (fun a => Agent.id a = "platform-sre-kubernetes" ->
                      In "Docker"%string (Agent.techKeywords a)
                      /\ matchesQuery "docker" a = false)
            AGENT_REGISTRY.
Proof.
  cbv zeta. split; [|split; [|split; [|split]]].
  - vm_compute. reflexivity.
  - vm_compute. reflexivity.
  - exact (search_Mentions "docker" AGENT_REGISTRY).
  - exact (search_Mentions "docker" SKILL_REGISTRY).
  - by_test (fun a => negb (Agent.id a =? "platform-sre-kubernetes")%string
                      || (Array_includes (Agent.techKeywords a) "Docker"
                          && negb (matchesQuery "docker" a))).
    intros a Hb Hid. rewrite Hid, String.eqb_refl in Hb. cbn [negb orb] in Hb.
    apply andb_true_iff in Hb as [Hk Hm].
    split; [now apply Array_includes_In | now destruct (matchesQuery "docker" a)].
Qed.

(** C5, as the specification has it, fails: the agent
    platform-sre-kubernetes is not among the agents [searchAgentSkills]
    returns for docker. *)
Lemma search_docker_misses_kubernetes_agent :
  ~ exists a : AgentEntry,
      In a (agents (searchAgentSkills "docker"))
      /\ Agent.id a = "platform-sre-kubernetes".
Proof.
  intros [a [Ha _]].
  assert (He : agents (searchAgentSkills "docker") = [])
    by (vm_compute; reflexivity).
  rewrite He in Ha. destruct Ha.
Qed.

(** ** The category index *)

Lemma string_compare_le_trans (a b c : string) :
  String.compare a b <> Gt -> String.compare b c <> Gt ->
  String.compare a c <> Gt.
Proof.
  revert b c. induction a as [|x a IH]; intros [|y b] [|z c];
    cbn [String.compare]; try congruence.
  unfold Ascii.compare.
  destruct (N.compare_spec (N_of_ascii x) (N_of_ascii y)) as [Hxy|Hxy|Hxy];
    destruct (N.compare_spec (N_of_ascii y) (N_of_ascii z)) as [Hyz|Hyz|Hyz];
    destruct (N.compare_spec (N_of_ascii x) (N_of_ascii z)) as [Hxz|Hxz|Hxz];
    try congruence; try lia.
  apply IH.
Qed.

Lemma defaultCompare_le (a b : string) :
  defaultCompare a b <= 0 <-> String.compare a b <> Gt.
Proof.
  unfold defaultCompare. destruct (String.compare a b); split;
    (congruence || lia).
Qed.

Lemma defaultCompare_anti (a b : string) :
  0 < defaultCompare a b -> defaultCompare b a <= 0.
Proof.
  unfold defaultCompare. rewrite (String.compare_antisym b a).
  destruct (String.compare a b); cbn; lia.
Qed.

Lemma defaultCompare_trans (a b c : string) :
  defaultCompare a b <= 0 -> defaultCompare b c <= 0 -> defaultCompare a c <= 0.
Proof. rewrite !defaultCompare_le. apply string_compare_le_trans. Qed.

(** Without duplicates, sorted by the default comparator means strictly
    increasing. *)
Lemma sorted_NoDup_stringLt (l : list string) :
  NoDup l ->
  StronglySorted (fun a b => defaultCompare a b <= 0) l ->
  StronglySorted stringLt l.
Proof.
  intros Hnd Hs. induction Hs as [|x l Hs IH Hall].
  - constructor.
  - apply NoDup_cons_iff in Hnd as [Hx Hnd]. constructor; [now apply IH|].
    rewrite Forall_forall in *. intros z Hz.
    specialize (Hall z Hz). apply defaultCompare_le in Hall.
    unfold stringLt. destruct (String.compare x z) eqn:Hc.
    + apply String.compare_eq_iff in Hc. now subst.
    + reflexivity.
    + congruence.
Qed.

Lemma Set_add_In (set : list string) (c x : string) :
  In x (Set_add set c) <-> In x set \/ x = c.
Proof.
  unfold Set_add. destruct (Array_includes set c) eqn:Hc.
  - apply Array_includes_In in Hc. split; [tauto|].
    intros [Hx | ->]; assumption.
  - rewrite in_app_iff. cbn [In]. intuition congruence.
Qed.

Lemma Set_add_NoDup (set : list string) (c : string) :
  NoDup set -> NoDup (Set_add set c).
Proof.
  intros Hnd. unfold Set_add. destruct (Array_includes set c) eqn:Hc.
  - assumption.
  - apply NoDup_app; [assumption | repeat constructor; intros [] |].
    intros x Hx [<- | []]. apply Array_includes_In in Hx. congruence.
Qed.

Lemma Set_add_all_In (cs set : list string) (x : string) :
  In x (fold_left Set_add cs set) <-> In x set \/ In x cs.
Proof.
  revert set. induction cs as [|c cs IH]; intros set; cbn [fold_left In].
  - tauto.
  - rewrite IH, Set_add_In. intuition congruence.
Qed.

Lemma Set_add_all_NoDup (cs set : list string) :
  NoDup set -> NoDup (fold_left Set_add cs set).
Proof.
  revert set. induction cs as [|c cs IH]; intros set Hnd; cbn [fold_left].
  - assumption.
  - now apply IH, Set_add_NoDup.
Qed.

Section CategoryFacts.
Context {E : Type} `{CatalogEntry E}.

Lemma collect_from_In (registry : list E) (set : list string) (x : string) :
  In x (fold_left (fun cats e => fold_left Set_add (entryCategories e) cats)
                  registry set)
  <-> In x set \/ exists e, In e registry /\ In x (entryCategories e).
Proof.
  revert set. induction registry as [|e l IH]; intros set; cbn [fold_left].
  - split; [tauto | intros [Hx | [e [[] _]]]; assumption].
  - rewrite IH, Set_add_all_In. split.
    + intros [[Hx | Hx] | [e' [He' Hx]]].
      * now left.
      * right. exists e. split; [now left | assumption].
      * right. exists e'. split; [now right | assumption].
    + intros [Hx | [e' [[<- | He'] Hx]]].
      * left. now left.
      * left. now right.
      * right. now exists e'.
Qed.

Lemma collect_from_NoDup (registry : list E) (set : list string) :
  NoDup set ->
  NoDup (fold_left (fun cats e => fold_left Set_add (entryCategories e) cats)
                   registry set).
Proof.
  revert set. induction registry as [|e l IH]; intros set Hnd; cbn [fold_left].
  - assumption.
  - now apply IH, Set_add_all_NoDup.
Qed.

Lemma collectCategories_In (registry : list E) (x : string) :
  In x (collectCategories registry)
  <-> exists e, In e registry /\ In x (entryCategories e).
Proof.
  unfold collectCategories. rewrite collect_from_In. cbn [In]. tauto.
Qed.

Lemma collectCategories_NoDup (registry : list E) :
  NoDup (collectCategories registry).
Proof. apply collect_from_NoDup. constructor. Qed.

(** The index of one catalog. *)
Lemma sorted_categories (registry : list E) :
  let cats := Array_sort defaultCompare (collectCategories registry) in
  NoDup cats
  /\ StronglySorted stringLt cats
  /\ (forall c, In c cats
                <-> exists e, In e registry /\ In c (entryCategories e)).
Proof.
  cbv zeta.
  assert (Hnd : NoDup (Array_sort defaultCompare (collectCategories registry))).
  { eapply Permutation_NoDup;
      [apply Permutation_sym, Array_sort_Permutation|].
    apply collectCategories_NoDup. }
  split; [exact Hnd|]. split.
  - apply sorted_NoDup_stringLt; [exact Hnd|].
    apply Array_sort_sorted.
    + exact defaultCompare_anti.
    + exact defaultCompare_trans.
  - intros c. now rewrite Array_sort_In, collectCategories_In.
Qed.
End CategoryFacts.

(** C9: each of the two lists of [listCategories] is without duplicates
    and in lexicographic order, and holds exactly the categories that occur
    in some entry of its catalog. *)
Theorem listCategories_sorted_distinct :
  (NoDup (agentCategories listCategories)
   /\ StronglySorted stringLt (agentCategories listCategories)
   /\ (forall c : string,
         In c (agentCategories listCategories)
         <-> exists a, In a AGENT_REGISTRY /\ In c (Agent.categories a)))
  /\ (NoDup (skillCategories listCategories)
      /\ StronglySorted stringLt (skillCategories listCategories)
      /\ (forall c : string,
            In c (skillCategories listCategories)
            <-> exists s, In s SKILL_REGISTRY /\ In c (Skill.categories s))).
Proof.
  split.
  - exact (sorted_categories AGENT_REGISTRY).
  - exact (sorted_categories SKILL_REGISTRY).
Qed.

(** * Further properties of the engine *)

(** ** More facts about strings and lists *)

Lemma append_assoc (a b c : string) :
  ((a ++ b) ++ c)%string = (a ++ (b ++ c))%string.
Proof. induction a as [|x a IH]; simpl; [reflexivity | now rewrite IH]. Qed.

Lemma append_nil_r (a : string) : (a ++ EmptyString)%string = a.
Proof. induction a as [|x a IH]; simpl; [reflexivity | now rewrite IH]. Qed.

Lemma length_append (a b : string) :
  String.length (a ++ b) = (String.length a + String.length b)%nat.
Proof. induction a as [|x a IH]; simpl; [reflexivity | now rewrite IH]. Qed.


(** Two splits of one string at the same position are the same split. *)
Lemma append_inj (a a' b b' : string) :
  String.length a = String.length a' ->
  (a ++ b)%string = (a' ++ b')%string -> a = a' /\ b = b'.
Proof.
  revert a'. induction a as [|x a IH]; intros [|x' a'] Hlen Heq;
    simpl in *; try discriminate.
  - now split.
  - injection Heq as -> Heq. injection Hlen as Hlen.
    destruct (IH a' Hlen Heq) as [-> ->]. now split.
Qed.

Lemma append_inv_head (p a b : string) :
  (p ++ a)%string = (p ++ b)%string -> a = b.
Proof. intros Heq. now apply append_inj in Heq. Qed.

Lemma append_inv_tail (a b t : string) :
  (a ++ t)%string = (b ++ t)%string -> a = b.
Proof.
  intros Heq. apply append_inj in Heq; [tauto|].
  apply (f_equal String.length) in Heq. rewrite !length_append in Heq. lia.
Qed.

Lemma Substring_trans (a b c : string) :
  Substring a b -> Substring b c -> Substring a c.
Proof.
  intros [p [r ->]] [p' [r' ->]]. exists (p' ++ p)%string, (r ++ r')%string.
  now rewrite !append_assoc.
Qed.


Lemma filter_length_mono {A : Type} (p q : A -> bool) (l : list A) :
  (forall x, p x = true -> q x = true) ->
  (List.length (filter p l) <= List.length (filter q l))%nat.
Proof.
  intros Hpq. induction l as [|x l IH]; simpl; [lia|].
  destruct (p x) eqn:Hp.
  - rewrite (Hpq x Hp). simpl. lia.
  - destruct (q x); simpl; lia.
Qed.


Lemma StronglySorted_app_inv {A : Type} (R : A -> A -> Prop) (l1 l2 : list A) :
  StronglySorted R (l1 ++ l2) ->
  forall x y, In x l1 -> In y l2 -> R x y.
Proof.
  induction l1 as [|z l1 IH]; intros Hs x y Hx Hy; [destruct Hx|].
  cbn [app] in Hs. apply StronglySorted_inv in Hs as [Hs Hz].
  destruct Hx as [<-|Hx].
  - rewrite Forall_forall in Hz. apply Hz, in_or_app. now right.
  - now apply IH.
Qed.

Lemma firstn_prefix {A : Type} (a b : nat) (l : list A) :
  (a <= b)%nat -> exists rest, firstn b l = firstn a l ++ rest.
Proof.
  intros Hab. exists (skipn a (firstn b l)).
  rewrite <- (firstn_skipn a (firstn b l)) at 1.
  now rewrite firstn_firstn, Nat.min_l.
Qed.

Lemma slice0_sliceLength {A : Type} (n : Z) (l : list A) :
  Z.of_nat (List.length (slice0 n l)) = sliceLength n (Z.of_nat (List.length l)).
Proof.
  unfold slice0, sliceLength. rewrite length_firstn.
  destruct (n <? 0) eqn:Hn; [apply Z.ltb_lt in Hn | apply Z.ltb_ge in Hn]; lia.
Qed.

Lemma slice0_prefix {A : Type} (n m : Z) (l : list A) :
  0 <= n -> n <= m -> exists rest, slice0 m l = slice0 n l ++ rest.
Proof.
  intros Hn Hm. unfold slice0.
  destruct (n <? 0) eqn:Hn'; [apply Z.ltb_lt in Hn'; lia|].
  destruct (m <? 0) eqn:Hm'; [apply Z.ltb_lt in Hm'; lia|].
  apply firstn_prefix. lia.
Qed.

(** ** More on the ranking *)

Section RankMore.
Context {E : Type} `{CatalogEntry E}.
Variable options : Options.
Variable registry : list E.

(** The truncation drops no entry that scores more than one it keeps. *)
Lemma rank_best (max : Z) (a b : E) :
  In a (rank max (scoreAll options registry)) ->
  In b registry ->
  ~ In b (rank max (scoreAll options registry)) ->
  entryScore options b <= entryScore options a.
Proof.
  destruct (rank_firstn options registry max) as [k ->].
  intros Ha Hb Hnb.
  assert (Hpos : 0 < entryScore options a).
  { apply In_firstn, Array_sort_In, filter_In in Ha as [_ Ha].
    now apply Z.ltb_lt. }
  destruct (Z.ltb_spec 0 (entryScore options b)) as [Hbpos | Hbneg]; [|lia].
  assert (Hbr : In b (rankedEntries options registry)).
  { apply Array_sort_In, filter_In. split; [assumption | now apply Z.ltb_lt]. }
  rewrite <- (firstn_skipn k) in Hbr. apply in_app_or in Hbr as [Hbr | Hbr];
    [contradiction|].
  pose proof (Array_sort_key_sorted (entryScore options)
                (filter (fun e => 0 <? entryScore options e) registry)) as Hs.
  fold (rankedEntries options registry) in Hs.
  rewrite <- (firstn_skipn k) in Hs.
  exact (StronglySorted_app_inv _ _ _ Hs a b Ha Hbr).
Qed.

Lemma rank_cap_prefix (n m : Z) (scored : list (E * Z)) :
  0 <= n -> n <= m -> exists rest, rank m scored = rank n scored ++ rest.
Proof.
  intros Hn Hm. unfold rank.
  destruct (slice0_prefix n m (sortByScore (keepPositive scored)) Hn Hm)
    as [rest ->].
  exists (map fst rest). apply map_app.
Qed.

Lemma rank_sliceLength (max : Z) :
  Forall (fun e => entryPriority e <= 3) registry ->
  Z.of_nat (List.length (rank max (scoreAll options registry)))
  = sliceLength max (Z.of_nat (List.length registry)).
Proof.
  intros tiers. rewrite rank_all by assumption.
  rewrite slice0_sliceLength.
  now rewrite (Permutation_length (Array_sort_Permutation _ registry)).
Qed.
End RankMore.

(** X1: for every request, each returned list is in the order of
    descending score. *)
Theorem recommendation_sorted_by_score (options : Options) :
  StronglySorted (keyDescending (entryScore options))
                 (agents (recommendAgentSkills options))
  /\ StronglySorted (keyDescending (entryScore options))
                    (skills (recommendAgentSkills options)).
Proof.
  rewrite recommend_agents, recommend_skills. split; apply rank_sorted.
Qed.

(** X2: the cap cuts the worst: an entry of the catalog that is not
    returned scores no more than any entry that is. *)
Theorem recommendation_keeps_best (options : Options) :
  (forall a b : AgentEntry,
      In a (agents (recommendAgentSkills options)) ->
      In b AGENT_REGISTRY ->
      ~ In b (agents (recommendAgentSkills options)) ->
      entryScore options b <= entryScore options a)
  /\ (forall a b : SkillEntry,
      In a (skills (recommendAgentSkills options)) ->
      In b SKILL_REGISTRY ->
      ~ In b (skills (recommendAgentSkills options)) ->
      entryScore options b <= entryScore options a).
Proof.
  rewrite recommend_agents, recommend_skills. split; intros a b; apply rank_best.
Qed.

Lemma recommendation_keeps_best_witness :
  let a := {| Agent.id := "plan";
              Agent.name := "Plan Mode";
              Agent.description := "Strategic planning and architecture assistant focused on thoughtful analysis before implementation";
              Agent.categories := ["planning"];
              Agent.tags := ["planning"; "strategy"; "analysis"; "think-first"];
              Agent.relevantProjectTypes := ["*"];
              Agent.techKeywords := [];
              Agent.priority := 1 |} in
  let b := {| Agent.id := "janitor";
              Agent.name := "Janitor";
              Agent.description := "Code cleanup and maintenance";
              Agent.categories := ["review"];
              Agent.tags := ["cleanup"; "maintenance"; "refactor"];
              Agent.relevantProjectTypes := ["*"];
              Agent.techKeywords := [];
              Agent.priority := 3 |} in
  In a (agents (recommendAgentSkills defaultRequest))
  /\ In b AGENT_REGISTRY
  /\ ~ In b (agents (recommendAgentSkills defaultRequest))
  /\ entryScore defaultRequest b <= entryScore defaultRequest a.
Proof.
  intros a b.
  assert (Ha : In a (agents (recommendAgentSkills defaultRequest)))
    by (vm_compute; left; reflexivity).
  assert (Hb : In b AGENT_REGISTRY).
  { apply in_rev. vm_compute. left. reflexivity. }
  assert (Hnb : ~ In b (agents (recommendAgentSkills defaultRequest))).
  { intros Hin. vm_compute in Hin.
    repeat (destruct Hin as [Hin | Hin]; [discriminate Hin|]). exact Hin. }
  repeat (split; [assumption|]).
  exact (proj1 (recommendation_keeps_best defaultRequest) a b Ha Hb Hnb).
Defined.

(** X3: with the rest of the request unchanged, a cap [n >= 0] returns a
    prefix of what a larger cap returns, and the cap of one catalog does
    not change the list of the other. *)
Theorem larger_cap_extends_result (options : Options) (n m : Z) :
  0 <= n -> n <= m ->
  (exists rest,
      agents (recommendAgentSkills (withMaxAgents m options))
      = agents (recommendAgentSkills (withMaxAgents n options)) ++ rest)
  /\ (exists rest,
      skills (recommendAgentSkills (withMaxSkills m options))
      = skills (recommendAgentSkills (withMaxSkills n options)) ++ rest)
  /\ skills (recommendAgentSkills (withMaxAgents n options))
     = skills (recommendAgentSkills options)
  /\ agents (recommendAgentSkills (withMaxSkills n options))
     = agents (recommendAgentSkills options).
Proof.
  intros Hn Hm. rewrite !recommend_agents, !recommend_skills.
  split; [|split; [|split]].
  - exact (rank_cap_prefix n m (scoreAll options AGENT_REGISTRY) Hn Hm).
  - exact (rank_cap_prefix n m (scoreAll options SKILL_REGISTRY) Hn Hm).
  - reflexivity.
  - reflexivity.
Qed.

Lemma larger_cap_extends_result_witness :
  0 <= 3 /\ 3 <= 5
  /\ exists rest,
      agents (recommendAgentSkills (withMaxAgents 5 defaultRequest))
      = agents (recommendAgentSkills (withMaxAgents 3 defaultRequest)) ++ rest.
Proof.
  assert (H0 : 0 <= 3) by lia. assert (H1 : 3 <= 5) by lia.
  split; [exact H0|]. split; [exact H1|].
  exact (proj1 (larger_cap_extends_result defaultRequest 3 5 H0 H1)).
Defined.

(** X4: the number of entries returned, for every integer cap: the cap
    itself up to the size of the catalog, nothing for the cap 0, and for a
    negative cap [-k] all entries but [k] (none once [k] reaches the size
    of the catalog). *)
Theorem recommendation_length_any_cap (options : Options) :
  Z.of_nat (List.length (agents (recommendAgentSkills options)))
  = (if maxAgentsOf options <? 0
     then Z.max (Z.of_nat (List.length AGENT_REGISTRY) + maxAgentsOf options) 0
     else Z.min (maxAgentsOf options) (Z.of_nat (List.length AGENT_REGISTRY)))
  /\ Z.of_nat (List.length (skills (recommendAgentSkills options)))
     = (if maxSkillsOf options <? 0
        then Z.max (Z.of_nat (List.length SKILL_REGISTRY) + maxSkillsOf options) 0
        else Z.min (maxSkillsOf options) (Z.of_nat (List.length SKILL_REGISTRY))).
Proof.
  rewrite recommend_agents, recommend_skills. split.
  - apply rank_sliceLength, agent_tiers.
  - apply rank_sliceLength, skill_tiers.
Qed.

(** ** More on the scorer *)

Lemma techKeywordMatches_mono (techLower techLower' : list string) (keyword : string) :
  incl techLower techLower' ->
  techKeywordMatches techLower keyword = true ->
  techKeywordMatches techLower' keyword = true.
Proof.
  unfold techKeywordMatches. rewrite !existsb_exists.
  intros Hincl [t [Ht Hm]]. exists t. split; [now apply Hincl | assumption].
Qed.

(** X5: a larger tech stack never lowers a score: when every item of
    [stack] is an item of [stack'], each entry scores on [stack'] at least
    what it scores on [stack], the rest of the request being the same. Order
    and repetition of the items do not count. *)
Theorem score_monotone_in_tech_stack (E : Type) (C : CatalogEntry E)
    (options : Options) (stack stack' : list string) (e : E) :
  incl stack stack' ->
  entryScore (withTechStack stack options) e
  <= entryScore (withTechStack stack' options) e.
Proof.
  intros Hincl. unfold entryScore. rewrite !scoreEntry_signals.
  change (projectTypeOf (withTechStack stack options))
    with (projectTypeOf options).
  change (projectTypeOf (withTechStack stack' options))
    with (projectTypeOf options).
  change (userIntentOf (withTechStack stack options))
    with (userIntentOf options).
  change (userIntentOf (withTechStack stack' options))
    with (userIntentOf options).
  change (techStackOf (withTechStack stack options)) with stack.
  change (techStackOf (withTechStack stack' options)) with stack'.
  unfold techSignal.
  pose proof (filter_length_mono
                (techKeywordMatches (map toLowerCase stack))
                (techKeywordMatches (map toLowerCase stack'))
                (entryTechKeywords e)) as Hmono.
  assert (Hle : (List.length (filter (techKeywordMatches (map toLowerCase stack))
                                     (entryTechKeywords e))
                 <= List.length (filter (techKeywordMatches (map toLowerCase stack'))
                                        (entryTechKeywords e)))%nat).
  { apply Hmono. intros kw. apply techKeywordMatches_mono.
    now apply incl_map. }
  lia.
Qed.

Lemma score_monotone_in_tech_stack_witness :
  let e := {| Agent.id := "expert-react-frontend-engineer";
              Agent.name := "Expert React Frontend Engineer";
              Agent.description := "Expert React frontend development";
              Agent.categories := ["engineering"; "frontend"];
              Agent.tags := ["react"; "frontend"; "components"; "state-management"];
              Agent.relevantProjectTypes := ["web-app"];
              Agent.techKeywords := ["React"; "TypeScript"; "JavaScript"];
              Agent.priority := 2 |} in
  incl ["React"] ["TypeScript"; "React"; "React"]
  /\ entryScore (withTechStack ["React"] defaultRequest) e
     <= entryScore (withTechStack ["TypeScript"; "React"; "React"] defaultRequest) e.
Proof.
  intros e.
  assert (Hincl : incl ["React"%string] ["TypeScript"; "React"; "React"]%string).
  { intros x [<- | []]. right. left. reflexivity. }
  split; [exact Hincl|].
  exact (score_monotone_in_tech_stack _ _ defaultRequest _ _ e Hincl).
Defined.



(** ** More on the search *)

Section SearchMore.
Context {E : Type} `{CatalogEntry E}.


Lemma matchesQuery_narrow (q q' : string) (e : E) :
  Substring q q' -> matchesQuery q' e = true -> matchesQuery q e = true.
Proof.
  intros Hsub. unfold matchesQuery.
  rewrite !orb_true_iff, !existsb_exists.
  assert (Hinc : forall s, includes s q' = true -> includes s q = true).
  { intros s Hs. apply includes_Substring.
    apply includes_Substring in Hs. now apply Substring_trans with q'. }
  intros [[[Hn | Hd] | [t [Ht Hs]]] | [c [Hc Hs]]].
  - left. left. left. now apply Hinc.
  - left. left. right. now apply Hinc.
  - left. right. exists t. split; [assumption | now apply Hinc].
  - right. exists c. split; [assumption | now apply Hinc].
Qed.
End SearchMore.




(** X8: a longer query narrows the search: when [query], letter case apart,
    occurs in [query'], whatever is returned for [query'] is returned for
    [query]. *)
Theorem longer_query_narrows_search (query query' : string) :
  Substring (toLowerCase query) (toLowerCase query') ->
  incl (agents (searchAgentSkills query')) (agents (searchAgentSkills query))
  /\ incl (skills (searchAgentSkills query')) (skills (searchAgentSkills query)).
Proof.
  intros Hsub. split.
  - intros a. change (In a (filter (matchesQuery (toLowerCase query')) AGENT_REGISTRY)
                      -> In a (filter (matchesQuery (toLowerCase query)) AGENT_REGISTRY)).
    rewrite !filter_In. intros [Hin Hm]. split; [assumption|].
    now apply matchesQuery_narrow with (toLowerCase query').
  - intros s. change (In s (filter (matchesQuery (toLowerCase query')) SKILL_REGISTRY)
                      -> In s (filter (matchesQuery (toLowerCase query)) SKILL_REGISTRY)).
    rewrite !filter_In. intros [Hin Hm]. split; [assumption|].
    now apply matchesQuery_narrow with (toLowerCase query').
Qed.

Lemma longer_query_narrows_search_witness :
  Substring (toLowerCase "Test") (toLowerCase "playwright TEST")
  /\ incl (agents (searchAgentSkills "playwright TEST"))
          (agents (searchAgentSkills "Test")).
Proof.
  assert (Hsub : Substring (toLowerCase "Test") (toLowerCase "playwright TEST")).
  { exists "playwright "%string, EmptyString. reflexivity. }
  split; [exact Hsub|].
  exact (proj1 (longer_query_narrows_search "Test" "playwright TEST" Hsub)).
Defined.

(** X9: whatever the query, each list of the search is a selection of its
    catalog without duplicates and in declaration order. *)
Theorem search_keeps_catalog_order (query : string) :
  (NoDup (agents (searchAgentSkills query))
   /\ forall a b : AgentEntry,
        precedes a b (agents (searchAgentSkills query)) ->
        precedes a b AGENT_REGISTRY)
  /\ (NoDup (skills (searchAgentSkills query))
      /\ forall a b : SkillEntry,
           precedes a b (skills (searchAgentSkills query)) ->
           precedes a b SKILL_REGISTRY).
Proof.
  split; split.
  - apply (NoDup_filter _ AGENT_REGISTRY_NoDup).
  - intros a b. apply precedes_filter_inv.
  - apply (NoDup_filter _ SKILL_REGISTRY_NoDup).
  - intros a b. apply precedes_filter_inv.
Qed.

(** ** The file generator *)

Lemma fold_left_push {A B : Type} (f : A -> B) (l : list A) (files : list B) :
  fold_left (fun files x => files ++ [f x]) l files = files ++ map f l.
Proof.
  revert files. induction l as [|x l IH]; intros files; simpl.
  - now rewrite app_nil_r.
  - now rewrite IH, <- app_assoc.
Qed.

Lemma generateSelectedSkills_files (skillEntries : list SkillEntry)
    (agentEntries : list AgentEntry) :
  generateSelectedSkills skillEntries agentEntries
  = map skillFile skillEntries ++ map agentFile agentEntries.
Proof.
  unfold generateSelectedSkills. now rewrite !fold_left_push.
Qed.

Lemma generateAgentSkills_files (params : Params.WorkspaceInitParams)
    (options : option Generate.Options) :
  let r := recommendAgentSkills (generatorRequest params options) in
  generateAgentSkills params options
  = generateSelectedSkills (skills r) (agents r)
    ++ [generateSkillsIndex (agents r) (skills r) params].
Proof. reflexivity. Qed.

(** An injective-on-the-list function keeps a selection duplicate-free. *)
Lemma NoDup_map_inj_on {A B : Type} (f : A -> B) (l : list A) (x y : A) :
  NoDup (map f l) -> In x l -> In y l -> f x = f y -> x = y.
Proof.
  induction l as [|z l IH]; intros Hnd Hx Hy Heq; [destruct Hx|].
  cbn [map] in Hnd. apply NoDup_cons_iff in Hnd as [Hz Hnd].
  destruct Hx as [<- | Hx], Hy as [<- | Hy].
  - reflexivity.
  - exfalso. apply Hz. rewrite Heq. now apply in_map.
  - exfalso. apply Hz. rewrite <- Heq. now apply in_map.
  - now apply IH.
Qed.

Lemma NoDup_map_selection {A B : Type} (f : A -> B) (l sel : list A) :
  NoDup (map f l) -> NoDup sel -> incl sel l -> NoDup (map f sel).
Proof.
  intros Hnd Hsel Hincl. induction Hsel as [|x sel Hx Hsel IH]; cbn [map].
  - constructor.
  - constructor.
    + intros Hin. apply in_map_iff in Hin as [y [Heq Hy]].
      assert (y = x).
      { apply (NoDup_map_inj_on f l); try assumption.
        - apply Hincl. now right.
        - apply Hincl. now left. }
      subst y. contradiction.
    + apply IH. intros y Hy. apply Hincl. now right.
Qed.

Lemma NoDup_map_injective {A B : Type} (f : A -> B) (l : list A) :
  (forall x y, f x = f y -> x = y) -> NoDup l -> NoDup (map f l).
Proof.
  intros Hinj Hnd. induction Hnd as [|x l Hx Hnd IH]; cbn [map]; constructor.
  - intros Hin. apply in_map_iff in Hin as [y [Heq Hy]].
    apply Hinj in Heq. now subst.
  - exact IH.
Qed.

Lemma skill_path_inj (a b : string) :
  (".github/skills/" ++ a ++ "/SKILL.md")%string
  = (".github/skills/" ++ b ++ "/SKILL.md")%string -> a = b.
Proof. intros Heq. now apply append_inv_head, append_inv_tail in Heq. Qed.

Lemma agent_path_inj (a b : string) :
  (".github/agents/" ++ a ++ ".agent.md")%string
  = (".github/agents/" ++ b ++ ".agent.md")%string -> a = b.
Proof. intros Heq. now apply append_inv_head, append_inv_tail in Heq. Qed.

Lemma skill_paths_NoDup (l : list SkillEntry) :
  NoDup (map relativePath (map skillFile l)) <-> NoDup (map Skill.id l).
Proof.
  rewrite map_map. cbn [relativePath skillFile].
  rewrite <- (map_map Skill.id
                (fun i => (".github/skills/" ++ i ++ "/SKILL.md")%string)).
  split.
  - apply NoDup_map_inv.
  - apply NoDup_map_injective. intros a b. apply skill_path_inj.
Qed.

Lemma agent_paths_NoDup (l : list AgentEntry) :
  NoDup (map relativePath (map agentFile l)) <-> NoDup (map Agent.id l).
Proof.
  rewrite map_map. cbn [relativePath agentFile].
  rewrite <- (map_map Agent.id
                (fun i => (".github/agents/" ++ i ++ ".agent.md")%string)).
  split.
  - apply NoDup_map_inv.
  - apply NoDup_map_injective. intros a b. apply agent_path_inj.
Qed.

Lemma skill_path_not_agent_path (l : list AgentEntry) (s : SkillEntry) :
  ~ In (relativePath (skillFile s)) (map relativePath (map agentFile l)).
Proof.
  intros Hin. apply in_map_iff in Hin as [f [Heq Hf]].
  apply in_map_iff in Hf as [a [<- _]].
  cbn in Heq. discriminate.
Qed.

Lemma selected_paths_NoDup_iff (skillEntries : list SkillEntry)
    (agentEntries : list AgentEntry) :
  NoDup (map relativePath (generateSelectedSkills skillEntries agentEntries))
  <-> NoDup (map Skill.id skillEntries) /\ NoDup (map Agent.id agentEntries).
Proof.
  rewrite generateSelectedSkills_files, map_app.
  rewrite <- skill_paths_NoDup, <- agent_paths_NoDup. split.
  - intros Hnd. split.
    + now apply NoDup_app_remove_r in Hnd.
    + now apply NoDup_app_remove_l in Hnd.
  - intros [Hs Ha]. apply NoDup_app; try assumption.
    intros p Hp Hq. apply in_map_iff in Hp as [f [<- Hf]].
    apply in_map_iff in Hf as [s [<- _]].
    exact (skill_path_not_agent_path agentEntries s Hq).
Qed.

Lemma selected_paths_distinct_ids (skillEntries : list SkillEntry)
    (agentEntries : list AgentEntry) :
  NoDup (map Skill.id skillEntries) ->
  NoDup (map Agent.id agentEntries) ->
  NoDup (map relativePath (generateSelectedSkills skillEntries agentEntries)).
Proof. intros Hs Ha. now apply selected_paths_NoDup_iff. Qed.

(** X10: [generateSelectedSkills] writes one file per entry, skills first,
    and never merges entries: its paths are pairwise different exactly when
    the skills given have pairwise different ids and so have the agents. *)
Theorem selected_paths_distinct_iff_ids_distinct
    (skillEntries : list SkillEntry) (agentEntries : list AgentEntry) :
  generateSelectedSkills skillEntries agentEntries
  = map skillFile skillEntries ++ map agentFile agentEntries
  /\ (NoDup (map relativePath (generateSelectedSkills skillEntries agentEntries))
      <-> NoDup (map Skill.id skillEntries) /\ NoDup (map Agent.id agentEntries)).
Proof.
  split; [apply generateSelectedSkills_files | apply selected_paths_NoDup_iff].
Qed.

Lemma recommended_skill_ids_NoDup (options : Options) :
  NoDup (map Skill.id (skills (recommendAgentSkills options))).
Proof.
  rewrite recommend_skills.
  apply NoDup_map_selection with (l := SKILL_REGISTRY).
  - exact skill_ids_distinct.
  - apply rank_NoDup, SKILL_REGISTRY_NoDup.
  - apply rank_incl.
Qed.

Lemma recommended_agent_ids_NoDup (options : Options) :
  NoDup (map Agent.id (agents (recommendAgentSkills options))).
Proof.
  rewrite recommend_agents.
  apply NoDup_map_selection with (l := AGENT_REGISTRY).
  - exact agent_ids_distinct.
  - apply rank_NoDup, AGENT_REGISTRY_NoDup.
  - apply rank_incl.
Qed.

Lemma selected_paths_under_github (skillEntries : list SkillEntry)
    (agentEntries : list AgentEntry) :
  Forall (fun f => String.prefix ".github/" (relativePath f) = true
                   /\ relativePath f <> ".github/AGENT-SKILLS.md"%string)
         (generateSelectedSkills skillEntries agentEntries).
Proof.
  rewrite generateSelectedSkills_files. apply Forall_app. split.
  - apply Forall_forall. intros f Hf. apply in_map_iff in Hf as [s [<- _]].
    split; [reflexivity | cbn; discriminate].
  - apply Forall_forall. intros f Hf. apply in_map_iff in Hf as [a [<- _]].
    split; [reflexivity | cbn; discriminate].
Qed.

(** X11: when [options] gives no caps, [generateAgentSkills] returns 21
    files for every [params]: the files of 12 skills, then the files of 8
    agents, then the index. The [skillIds] and [agentIds] of [options] are
    not read. *)
Theorem default_caps_give_21_files (params : Params.WorkspaceInitParams)
    (options : option Generate.Options) :
  optionalProperty Generate.maxAgents options = None ->
  optionalProperty Generate.maxSkills options = None ->
  exists (skills : list SkillEntry) (agents : list AgentEntry),
    generateAgentSkills params options
    = map skillFile skills ++ map agentFile agents
      ++ [generateSkillsIndex agents skills params]
    /\ List.length skills = 12%nat
    /\ List.length agents = 8%nat
    /\ List.length (generateAgentSkills params options) = 21%nat.
Proof.
  intros Hagents Hskills.
  set (r := recommendAgentSkills (generatorRequest params options)).
  assert (Hs : List.length (skills r) = 12%nat).
  { unfold r. rewrite recommend_skills.
    rewrite rank_length; [|apply skill_tiers|].
    - unfold maxSkillsOf, generatorRequest. cbn [maxSkills orDefault].
      rewrite Hskills. reflexivity.
    - unfold maxSkillsOf, generatorRequest. cbn [maxSkills orDefault].
      rewrite Hskills. cbn. lia. }
  assert (Ha : List.length (agents r) = 8%nat).
  { unfold r. rewrite recommend_agents.
    rewrite rank_length; [|apply agent_tiers|].
    - unfold maxAgentsOf, generatorRequest. cbn [maxAgents orDefault].
      rewrite Hagents. reflexivity.
    - unfold maxAgentsOf, generatorRequest. cbn [maxAgents orDefault].
      rewrite Hagents. cbn. lia. }
  assert (Hfiles : generateAgentSkills params options
                   = map skillFile (skills r) ++ map agentFile (agents r)
                     ++ [generateSkillsIndex (agents r) (skills r) params]).
  { rewrite generateAgentSkills_files. cbv zeta. fold r.
    now rewrite generateSelectedSkills_files, <- app_assoc. }
  exists (skills r), (agents r). split; [exact Hfiles|].
  split; [exact Hs|]. split; [exact Ha|].
  rewrite Hfiles, !length_app, !length_map, Hs, Ha. reflexivity.
Qed.

Lemma default_caps_give_21_files_witness :
  let params :=
    {| Params.workspaceName := "demo";
       Params.purpose := "rest api with tests";
       Params.workspacePath := "/work/demo";
       Params.projectType := Some "api";
       Params.techStack := Some ["TypeScript"];
       Params.docLanguage := None;
       Params.codeCommentLanguage := None;
       Params.isMultiRepo := None;
       Params.additionalContext := None;
       Params.plannedTasks := None;
       Params.includeAgentSkills := None;
       Params.agentSkillsIntent := None |} in
  let options :=
    Some {| Generate.skillIds := Some ["aspire"];
            Generate.agentIds := None;
            Generate.userIntent := Some "docker";
            Generate.maxAgents := None;
            Generate.maxSkills := None |} in
  optionalProperty Generate.maxAgents options = None
  /\ optionalProperty Generate.maxSkills options = None
  /\ List.length (generateAgentSkills params options) = 21%nat.
Proof.
  intros params options.
  assert (Ha : optionalProperty Generate.maxAgents options = None) by reflexivity.
  assert (Hs : optionalProperty Generate.maxSkills options = None) by reflexivity.
  split; [exact Ha|]. split; [exact Hs|].
  destruct (default_caps_give_21_files params options Ha Hs)
    as [skills [agents [_ [_ [_ Hlen]]]]].
  exact Hlen.
Defined.

(** X12: for every [params] and [options], the files [generateAgentSkills]
    returns have pairwise different paths, all of them under [.github/],
    and the last one is the index [.github/AGENT-SKILLS.md]. *)
Theorem generated_paths_distinct (params : Params.WorkspaceInitParams)
    (options : option Generate.Options) :
  NoDup (map relativePath (generateAgentSkills params options))
  /\ Forall (fun f => String.prefix ".github/" (relativePath f) = true)
            (generateAgentSkills params options)
  /\ exists files,
       generateAgentSkills params options
       = files ++ [generateSkillsIndex
                     (agents (recommendAgentSkills (generatorRequest params options)))
                     (skills (recommendAgentSkills (generatorRequest params options)))
                     params].
Proof.
  rewrite generateAgentSkills_files. cbv zeta.
  set (r := recommendAgentSkills (generatorRequest params options)).
  pose proof (selected_paths_under_github (skills r) (agents r)) as Hunder.
  split; [|split].
  - rewrite map_app. apply NoDup_app.
    + apply selected_paths_distinct_ids.
      * apply recommended_skill_ids_NoDup.
      * apply recommended_agent_ids_NoDup.
    + repeat constructor. intros [].
    + intros p Hp [<- | []]. apply in_map_iff in Hp as [f [Heq Hf]].
      rewrite Forall_forall in Hunder. now apply (Hunder f Hf).
  - apply Forall_app. split.
    + eapply Forall_impl; [|exact Hunder]. cbn beta. tauto.
    + repeat constructor.
  - now exists (generateSelectedSkills (skills r) (agents r)).
Qed.

(** ** The content of the generated files *)

Lemma Array_includes_ext (l l' : list string) :
  (forall c, In c l <-> In c l') ->
  forall x, Array_includes l x = Array_includes l' x.
Proof.
  intros Hsame x.
  destruct (Array_includes l x) eqn:Hl, (Array_includes l' x) eqn:Hl';
    try reflexivity.
  - apply Array_includes_In, Hsame, Array_includes_In in Hl. congruence.
  - apply Array_includes_In, Hsame, Array_includes_In in Hl'. congruence.
Qed.

(** X13: the content of a SKILL.md or .agent.md file depends on the
    categories of its entry only through which categories these are:
    reordering or repeating them changes nothing. *)
Theorem content_independent_of_category_order :
  (forall (cats : list string) (skill : SkillEntry),
      (forall c, In c cats <-> In c (Skill.categories skill)) ->
      buildSkillMd (skillWithCategories cats skill) = buildSkillMd skill)
  /\ (forall (cats : list string) (agent : AgentEntry),
        (forall c, In c cats <-> In c (Agent.categories agent)) ->
        buildAgentMd (agentWithCategories cats agent) = buildAgentMd agent).
Proof.
  split.
  - intros cats skill Hsame.
    pose proof (Array_includes_ext _ _ Hsame) as Hext.
    cbv beta delta [buildSkillMd buildSkillBody].
    change (Skill.categories (skillWithCategories cats skill)) with cats.
    repeat match goal with
    | |- context [Array_includes cats ?c] => rewrite (Hext c)
    end.
    reflexivity.
  - intros cats agent Hsame.
    pose proof (Array_includes_ext _ _ Hsame) as Hext.
    cbv beta delta [buildAgentMd buildAgentBody].
    change (Agent.categories (agentWithCategories cats agent)) with cats.
    repeat match goal with
    | |- context [Array_includes cats ?c] => rewrite (Hext c)
    end.
    reflexivity.
Qed.

Lemma content_independent_of_category_order_witness :
  let agent := {| Agent.id := "context-architect";
                  Agent.name := "Context Architect";
                  Agent.description := "Plans and executes multi-file changes by identifying relevant context and dependencies";
                  Agent.categories := ["architecture"; "planning"];
                  Agent.tags := ["architecture"; "context-map"; "dependencies"; "multi-file"];
                  Agent.relevantProjectTypes := ["*"];
                  Agent.techKeywords := [];
                  Agent.priority := 1 |} in
  let cats := ["planning"; "architecture"; "planning"]%string in
  (forall c, In c cats <-> In c (Agent.categories agent))
  /\ buildAgentMd (agentWithCategories cats agent) = buildAgentMd agent.
Proof.
  intros agent cats.
  assert (Hsame : forall c, In c cats <-> In c (Agent.categories agent)).
  { intros c. cbn. tauto. }
  split; [exact Hsame|].
  exact (proj2 content_independent_of_category_order cats agent Hsame).
Defined.

Lemma EndsWith_refl (t : string) : EndsWith t t.
Proof. now exists EmptyString. Qed.

Lemma EndsWith_app_l (t p s : string) : EndsWith t s -> EndsWith t (p ++ s).
Proof. intros [h ->]. exists (p ++ h)%string. now rewrite append_assoc. Qed.

Lemma EndsWith_app_r (t s u : string) :
  EndsWith t s -> EndsWith (t ++ u) (s ++ u).
Proof. intros [h ->]. exists h. now rewrite append_assoc. Qed.

Lemma Array_join_cons (sep x : string) (l : list string) :
  l <> [] -> Array_join sep (x :: l) = (x ++ sep ++ Array_join sep l)%string.
Proof. destruct l; [congruence | reflexivity]. Qed.

Lemma EndsWith_join_last (sep a b : string) (pre : list string) :
  EndsWith (a ++ sep ++ b) (Array_join sep ((pre ++ [a]) ++ [b])).
Proof.
  induction pre as [|x pre IH].
  - apply EndsWith_refl.
  - cbn [app]. rewrite Array_join_cons.
    + now apply EndsWith_app_l, EndsWith_app_l.
    + intros Hnil. apply app_eq_nil in Hnil as [_ Hnil]. discriminate.
Qed.

Ltac peel_prefix := repeat first [apply EndsWith_refl | apply EndsWith_app_l].

(** X14: whatever template the categories select, a SKILL.md file ends
    with the section "## Tags" that lists the tags of the skill in their
    order, one item a line; an .agent.md file ends likewise with the
    section "## Specialization Tags". *)
Theorem generated_content_ends_with_tags :
  (forall skill : SkillEntry,
      EndsWith ("## Tags" ++ nl ++ nl
                  ++ Array_join nl (map tagLine (Skill.tags skill)) ++ nl ++ nl)
               (buildSkillMd skill))
  /\ (forall agent : AgentEntry,
        EndsWith ("## Specialization Tags" ++ nl ++ nl
                    ++ Array_join nl (map tagLine (Agent.tags agent)) ++ nl)
                 (buildAgentMd agent)).
Proof.
  split.
  - intros skill.
    replace ("## Tags" ++ nl ++ nl
               ++ Array_join nl (map tagLine (Skill.tags skill)) ++ nl ++ nl)%string
      with (("## Tags" ++ nl ++ nl
               ++ Array_join nl (map tagLine (Skill.tags skill)) ++ nl) ++ nl)%string
      by now rewrite !append_assoc.
    cbv beta delta [buildSkillMd]. cbv zeta.
    do 3 apply EndsWith_app_l. apply EndsWith_app_r.
    cbv beta delta [buildSkillBody]. cbv zeta.
    repeat match goal with
    | |- context [if ?b then _ else _] => destruct b
    end; cbn [app Array_join String.concat]; do 4 apply EndsWith_app_l;
      cbv beta delta [buildBlueprintInstructions buildDocGenInstructions
        buildTestingInstructions buildGitInstructions buildDevOpsInstructions
        buildCodeGenInstructions buildRefactorInstructions
        buildAnalysisInstructions buildMcpInstructions
        buildProjectSetupInstructions buildPromptInstructions
        buildGenericInstructions]; peel_prefix.
  - intros agent.
    replace ("## Specialization Tags" ++ nl ++ nl
               ++ Array_join nl (map tagLine (Agent.tags agent)) ++ nl)%string
      with ((("## Specialization Tags" ++ nl) ++ nl
               ++ Array_join nl (map tagLine (Agent.tags agent))) ++ nl)%string
      by now rewrite !append_assoc.
    cbv beta delta [buildAgentMd]. cbv zeta.
    do 3 apply EndsWith_app_l. apply EndsWith_app_r.
    cbv beta delta [buildAgentBody].
    do 12 lazymatch goal with
    | |- EndsWith ?t (let x := ?v in @?body x) =>
        let s := fresh "sections" in
        pose (s := v);
        let b := eval cbv beta in (body s) in
        change (EndsWith t b); clearbody s
    end.
    cbv zeta. apply EndsWith_join_last.
Qed.

(** ** The tech stack and the intent as the scorer reads them *)

Lemma techKeywordMatches_ext (techLower techLower' : list string) (keyword : string) :
  (forall t, In t techLower <-> In t techLower') ->
  techKeywordMatches techLower keyword = techKeywordMatches techLower' keyword.
Proof.
  intros Hsame.
  destruct (techKeywordMatches techLower keyword) eqn:Hl,
           (techKeywordMatches techLower' keyword) eqn:Hl'; try reflexivity.
  - apply (techKeywordMatches_mono techLower techLower') in Hl; [congruence|].
    intros t. apply Hsame.
  - apply (techKeywordMatches_mono techLower' techLower) in Hl'; [congruence|].
    intros t. apply Hsame.
Qed.

Lemma scoreAll_ext {E : Type} `{CatalogEntry E} (o o' : Options) (registry : list E) :
  projectTypeOf o = projectTypeOf o' ->
  (forall t, In t (map toLowerCase (techStackOf o))
             <-> In t (map toLowerCase (techStackOf o'))) ->
  toLowerCase (userIntentOf o) = toLowerCase (userIntentOf o') ->
  scoreAll o registry = scoreAll o' registry.
Proof.
  intros Hpt Hts Hui. unfold scoreAll. apply map_ext. intros e. f_equal.
  rewrite !scoreEntry_signals, Hpt, Hui. f_equal. f_equal. f_equal.
  unfold techSignal. f_equal. f_equal. f_equal.
  apply filter_ext. intros kw. now apply techKeywordMatches_ext.
Qed.

(** X15: the two lists recommended do not depend on the order, the
    repetition or the letter case of the items of [techStack], nor on the
    letter case of [userIntent]. *)
Theorem recommendation_reads_stack_as_set (options : Options)
    (stack stack' : list string) (intent intent' : string) :
  (forall t, In t (map toLowerCase stack) <-> In t (map toLowerCase stack')) ->
  toLowerCase intent = toLowerCase intent' ->
  agents (recommendAgentSkills (withUserIntent intent (withTechStack stack options)))
  = agents (recommendAgentSkills (withUserIntent intent' (withTechStack stack' options)))
  /\ skills (recommendAgentSkills (withUserIntent intent (withTechStack stack options)))
     = skills (recommendAgentSkills (withUserIntent intent' (withTechStack stack' options))).
Proof.
  intros Hts Hui. rewrite !recommend_agents, !recommend_skills.
  change (maxAgentsOf (withUserIntent intent (withTechStack stack options)))
    with (maxAgentsOf options).
  change (maxAgentsOf (withUserIntent intent' (withTechStack stack' options)))
    with (maxAgentsOf options).
  change (maxSkillsOf (withUserIntent intent (withTechStack stack options)))
    with (maxSkillsOf options).
  change (maxSkillsOf (withUserIntent intent' (withTechStack stack' options)))
    with (maxSkillsOf options).
  split; f_equal; apply scoreAll_ext; try reflexivity; assumption.
Qed.

Lemma recommendation_reads_stack_as_set_witness :
  (forall t, In t (map toLowerCase ["React"; "TypeScript"])
             <-> In t (map toLowerCase ["typescript"; "REACT"; "react"]))
  /\ toLowerCase "Need FRONTEND help" = toLowerCase "need frontend help"
  /\ agents (recommendAgentSkills
               (withUserIntent "Need FRONTEND help"
                  (withTechStack ["React"; "TypeScript"] defaultRequest)))
     = agents (recommendAgentSkills
                 (withUserIntent "need frontend help"
                    (withTechStack ["typescript"; "REACT"; "react"] defaultRequest))).
Proof.
  assert (Hts : forall t, In t (map toLowerCase ["React"; "TypeScript"])
                          <-> In t (map toLowerCase ["typescript"; "REACT"; "react"])).
  { intros t. cbn. tauto. }
  assert (Hui : toLowerCase "Need FRONTEND help" = toLowerCase "need frontend help")
    by reflexivity.
  split; [exact Hts|]. split; [exact Hui|].
  exact (proj1 (recommendation_reads_stack_as_set defaultRequest _ _ _ _ Hts Hui)).
Defined.
